(** * SchedulerService: a shallow embedding of the periodic job orchestrator

    The class [SchedulerService] drives two cron jobs (sales sync every five
    minutes, registration sync every minute), keeps run statistics, and stops
    itself after too many consecutive sales-sync failures.

    The class fields become a record; every method becomes a computation in a
    small monad that threads the object, records the calls made to the
    collaborators (database, processing service, posting service, logger, cron
    library) and propagates JavaScript exceptions.  The answers of the
    collaborators, which are not part of the class, are supplied by a [World]
    record, one per invocation. *)

From Stdlib Require Import ZArith List String Bool Lia.
Import ListNotations.
Local Open Scope string_scope.
Local Open Scope list_scope.
Local Open Scope Z_scope.

(** ** Data *)

(** Which callback a cron job runs: [this.runSalesSync()] or
    [this.runRegistrationSync()]. *)
Inductive Task : Type := SalesTask | RegistrationTask.

(** A [CronJob] object of the cron library, as the scheduler builds it:
    pattern, callback, time zone, and whether it has been started and not
    stopped. *)
Record CronJob : Type := mkCronJob {
  cronTime : string;
  onTick : Task;
  timeZone : string;
  active : bool
}.

(** [PostResult], reduced to the two fields the scheduler reads; an absent
    [skipped] is falsy. *)
Record PostResult : Type := mkPostResult {
  success : bool;
  skipped : bool
}.

(** [AutoPostSettings], reduced to the two fields the scheduler reads. *)
Record AutoPostSettings : Type := mkSettings {
  enabled : bool;
  registrationsEnabled : bool
}.

Inductive Level : Type := debug | info | warn | error.

(** A thrown value (or the reason of a rejected promise), as far as a
    [catch (error: any)] block that reads [error.message] can tell values
    apart: a value that has a [message] (an [Error]; the scheduler only
    passes the message on to the logger and the stats), a value whose
    [message] is undefined (a thrown string or number, a plain object), and
    [null] and [undefined], on which reading a property throws. *)
Inductive Thrown : Type :=
| WithMessage (message : string)
| WithoutMessage
| NullValue
| UndefinedValue.

(** The thrown value is [null] or [undefined]. *)
Definition nullish (error : Thrown) : bool :=
  match error with
  | NullValue | UndefinedValue => true
  | WithMessage _ | WithoutMessage => false
  end.

(** What [error.message] evaluates to on a value that is neither [null] nor
    [undefined]; [None] stands for undefined. *)
Definition messageOf (thrown : Thrown) : option string :=
  match thrown with
  | WithMessage message => Some message
  | WithoutMessage | NullValue | UndefinedValue => None
  end.

(** The outcome of evaluating a JavaScript expression or awaiting a promise:
    a value, or a thrown value. *)
Inductive Completion (A : Type) : Type :=
| Normal (a : A)
| Throw (error : Thrown).
Arguments Normal {A} a.
Arguments Throw {A} error.

(** The promise is rejected with [null] or [undefined]. *)
Definition rejectsNullish {A : Type} (c : Completion A) : bool :=
  match c with Normal _ => false | Throw thrown => nullish thrown end.

Definition threw {A : Type} (c : Completion A) : bool :=
  match c with Normal _ => false | Throw _ => true end.

(** ** JavaScript dates *)

(** A [Date] holds a time value: milliseconds since the epoch, UTC.  The
    accessors the scheduler uses are those of ECMAScript (section "Date
    Objects").  The local time zone adjustment of the host is the function
    [tza], ECMAScript's [LocalTZA(t, isUTC)]: the offset in milliseconds in
    effect at the UTC time value [t] when [isUTC] is true, and the offset
    with which the local time value [t] is read when it is false (for a
    local time that a transition repeats or skips, the offset before the
    transition).  [/] and [mod] on [Z] round towards minus infinity, as the
    ECMAScript definitions do.  The range check of [TimeClip] is left
    out. *)
Module JSDate.

Definition msPerSecond : Z := 1000.
Definition msPerMinute : Z := 60000.
Definition msPerHour : Z := 3600000.
Definition msPerDay : Z := 86400000.

Definition Day (t : Z) : Z := t / msPerDay.
Definition HourFromTime (t : Z) : Z := (t / msPerHour) mod 24.
Definition MinFromTime (t : Z) : Z := (t / msPerMinute) mod 60.
Definition SecFromTime (t : Z) : Z := (t / msPerSecond) mod 60.
Definition msFromTime (t : Z) : Z := t mod msPerSecond.

Definition MakeTime (hour min sec ms : Z) : Z :=
  hour * msPerHour + min * msPerMinute + sec * msPerSecond + ms.
Definition MakeDate (day time : Z) : Z := day * msPerDay + time.

Definition LocalTime (tza : Z -> bool -> Z) (t : Z) : Z := t + tza t true.
Definition UTC (tza : Z -> bool -> Z) (t : Z) : Z := t - tza t false.

(** [date.getMinutes()] *)
Definition getMinutes (tza : Z -> bool -> Z) (t : Z) : Z :=
  MinFromTime (LocalTime tza t).

(** [date.setMinutes(min)]: the new time value of [date]. *)
Definition setMinutes (tza : Z -> bool -> Z) (t min : Z) : Z :=
  let lt := LocalTime tza t in
  UTC tza (MakeDate (Day lt)
             (MakeTime (HourFromTime lt) min (SecFromTime lt) (msFromTime lt))).

End JSDate.

(** What the host answers during one synchronous call of an introspection
    method: the clock, the next firing time the cron library computes for a
    job ([job.nextDate().toJSDate()]), and the local time zone adjustment. *)
Record Host : Type := mkHost {
  dateNow : Z;
  nextDate : CronJob -> Z;
  localTZA : Z -> bool -> Z
}.

(** [for (let i = 0; i < count; i++) { runs.push(body(i)) }], entered with
    [n] iterations left. *)
Fixpoint for_push (n : nat) (i : Z) (body : Z -> Z) : list Z :=
  match n with
  | O => []
  | S n' => body i :: for_push n' (i + 1) body
  end.

(** The object [getUpcomingRuns] returns. *)
Record UpcomingRuns : Type := mkUpcomingRuns {
  sales : list Z;
  registrations : list Z
}.

Section Scheduler.

(** The record types of sales and registrations are declared outside the
    class; the scheduler only passes them along. *)
Context {ProcessedSale ENSRegistration : Type}.

(** The value returned by [salesProcessingService.processNewSales()]. *)
Record ProcessingResult : Type := mkResult {
  fetched : Z;
  newSales : Z;
  duplicates : Z;
  errors : Z;
  processedSales : list ProcessedSale
}.

(** [lastRunStats] is typed [any]; the class stores two shapes in it:
    [{ ...result, autoPostResults }] after a successful sales sync and
    [{ success: false, error, consecutiveErrors }] after a failed one. *)
Inductive RunStats : Type :=
| SalesRunStats (result : ProcessingResult) (autoPostResults : list PostResult)
| FailureStats (error_message : option string) (errors_so_far : Z).

(** The fields of the class that change.  Dates are milliseconds since the
    epoch; [consecutiveErrors] is a JavaScript number that only ever holds
    small natural numbers, modelled as an exact integer. *)
Record SchedulerService : Type := mkScheduler {
  salesSyncJob : option CronJob;
  registrationSyncJob : option CronJob;
  isRunning : bool;
  lastRunTime : option Z;
  lastRunStats : option RunStats;
  consecutiveErrors : Z;
  maxConsecutiveErrors : Z
}.

(** The object right after the constructor has run. *)
Definition initial : SchedulerService :=
  {| salesSyncJob := None;
     registrationSyncJob := None;
     isRunning := false;
     lastRunTime := None;
     lastRunStats := None;
     consecutiveErrors := 0;
     maxConsecutiveErrors := 5 |}.

Definition set_salesSyncJob (j : option CronJob) (s : SchedulerService) :=
  mkScheduler j (registrationSyncJob s) (isRunning s) (lastRunTime s)
    (lastRunStats s) (consecutiveErrors s) (maxConsecutiveErrors s).

Definition set_registrationSyncJob (j : option CronJob)
  (s : SchedulerService) :=
  mkScheduler (salesSyncJob s) j (isRunning s) (lastRunTime s)
    (lastRunStats s) (consecutiveErrors s) (maxConsecutiveErrors s).

Definition set_isRunning (b : bool) (s : SchedulerService) :=
  mkScheduler (salesSyncJob s) (registrationSyncJob s) b (lastRunTime s)
    (lastRunStats s) (consecutiveErrors s) (maxConsecutiveErrors s).

Definition set_lastRunTime (t : option Z) (s : SchedulerService) :=
  mkScheduler (salesSyncJob s) (registrationSyncJob s) (isRunning s) t
    (lastRunStats s) (consecutiveErrors s) (maxConsecutiveErrors s).

Definition set_lastRunStats (r : option RunStats) (s : SchedulerService) :=
  mkScheduler (salesSyncJob s) (registrationSyncJob s) (isRunning s)
    (lastRunTime s) r (consecutiveErrors s) (maxConsecutiveErrors s).

Definition set_consecutiveErrors (n : Z) (s : SchedulerService) :=
  mkScheduler (salesSyncJob s) (registrationSyncJob s) (isRunning s)
    (lastRunTime s) (lastRunStats s) n (maxConsecutiveErrors s).

(** ** Calls that leave the class *)

(** One entry per call to a collaborator, in program order.  A log entry
    keeps the level and the message template as written in the source,
    without its leading pictograph and without the interpolated values. *)
Inductive Effect : Type :=
| Log (lvl : Level) (template : string)
| CronStart (t : Task)
| CronStop (t : Task)
| GetSystemState (key : string)
| SetSystemState (key value : string)
| RefreshTimeCache
| SalesProcessingProcessNewSales
| GetSettings
| IsAutoPostingEnabled
| AutoTweetProcessNewSales (sales : list ProcessedSale)
    (settings : AutoPostSettings)
| GetUnpostedRegistrations (limit : Z)
| AutoTweetProcessNewRegistrations (registrations : list ENSRegistration)
    (settings : AutoPostSettings).

(** What the collaborators answer during one invocation of a method:
    [new Date()] at its start, [databaseService.getSystemState],
    [autoTweetService.refreshTimeCache],
    [salesProcessingService.processNewSales], [autoTweetService.getSettings],
    [apiToggleService.isAutoPostingEnabled],
    [autoTweetService.processNewSales],
    [databaseService.getUnpostedRegistrations] and
    [autoTweetService.processNewRegistrations].  A method calls each of them
    at most once. *)
Record World : Type := mkWorld {
  startTime : Z;
  getSystemState : string -> Completion (option string);
  refreshTimeCache : Completion unit;
  salesProcessing_processNewSales : Completion ProcessingResult;
  getSettings : Completion AutoPostSettings;
  isAutoPostingEnabled : bool;
  autoTweet_processNewSales :
    list ProcessedSale -> AutoPostSettings -> Completion (list PostResult);
  getUnpostedRegistrations : Z -> Completion (list ENSRegistration);
  autoTweet_processNewRegistrations :
    list ENSRegistration -> AutoPostSettings -> Completion (list PostResult)
}.

(** ** The monad of methods *)

(** A method body maps the object to a completion, the updated object and
    the calls it made. *)
Definition Sched (A : Type) : Type :=
  SchedulerService -> Completion A * SchedulerService * list Effect.

Definition ret {A : Type} (a : A) : Sched A :=
  fun s => (Normal a, s, []).

Definition bind {A B : Type} (m : Sched A) (f : A -> Sched B) : Sched B :=
  fun s =>
    match m s with
    | (Normal a, s1, t1) =>
        match f a s1 with
        | (r, s2, t2) => (r, s2, t1 ++ t2)
        end
    | (Throw e, s1, t1) => (Throw e, s1, t1)
    end.

(** [try { m } catch (error) { h error }] *)
Definition try_catch {A : Type} (m : Sched A) (h : Thrown -> Sched A)
  : Sched A :=
  fun s =>
    match m s with
    | (Normal a, s1, t1) => (Normal a, s1, t1)
    | (Throw e, s1, t1) =>
        match h e s1 with
        | (r, s2, t2) => (r, s2, t1 ++ t2)
        end
    end.

Definition throw {A : Type} (error : Thrown) : Sched A :=
  fun s => (Throw error, s, []).

(** The expression [error.message]: the message, [None] for undefined; on
    [null] and [undefined] the read throws a [TypeError]. *)
Definition error_message (error : Thrown) : Sched (option string) :=
  match error with
  | WithMessage message => ret (Some message)
  | WithoutMessage => ret None
  | NullValue =>
      throw (WithMessage "Cannot read properties of null (reading 'message')")
  | UndefinedValue =>
      throw (WithMessage
               "Cannot read properties of undefined (reading 'message')")
  end.

Definition this : Sched SchedulerService :=
  fun s => (Normal s, s, []).

Definition assign (f : SchedulerService -> SchedulerService) : Sched unit :=
  fun s => (Normal tt, f s, []).

Definition call (e : Effect) : Sched unit :=
  fun s => (Normal tt, s, [e]).

(** A call whose answer comes from the world; a rejected promise or a thrown
    error surfaces at the [await]. *)
Definition await {A : Type} (e : Effect) (answer : Completion A) : Sched A :=
  fun s => (answer, s, [e]).

Definition when (b : bool) (m : Sched unit) : Sched unit :=
  if b then m else ret tt.

Definition completion_of {A : Type}
  (r : Completion A * SchedulerService * list Effect) : Completion A :=
  fst (fst r).

Definition state_of {A : Type}
  (r : Completion A * SchedulerService * list Effect) : SchedulerService :=
  snd (fst r).

Definition trace_of {A : Type}
  (r : Completion A * SchedulerService * list Effect) : list Effect :=
  snd r.

Notation "x <- m ;; k" := (bind m (fun x => k))
  (at level 61, m at next level, right associativity).
Notation "m ;; k" := (bind m (fun _ => k))
  (at level 61, right associativity).

(** ** Lifecycle control *)

(** [new CronJob(pattern, callback, null, false, timeZone)]: built but not
    started. *)
Definition newCronJob (pattern : string) (callback : Task) (tz : string)
  : CronJob :=
  mkCronJob pattern callback tz false.

(** [job.start()] *)
Definition job_start (j : CronJob) : CronJob :=
  mkCronJob (cronTime j) (onTick j) (timeZone j) true.

Definition isSome {A : Type} (o : option A) : bool :=
  match o with Some _ => true | None => false end.

(** [saveSchedulerState] is asynchronous and none of its callers awaits it:
    the call to [setSystemState] is issued at once, and its later outcome is
    only logged. *)
Definition saveSchedulerState (enable : bool) : Sched unit :=
  call (SetSystemState "scheduler_enabled"
          (if enable then "true" else "false")).

(** The rest of [saveSchedulerState], run when the promise of
    [setSystemState] settles with [answer]; what it throws rejects a promise
    that nobody holds. *)
Definition saveSchedulerState_settled (answer : Completion unit)
  : Sched unit :=
  try_catch
    (match answer with
     | Normal _ =>
         call (Log debug
           "Scheduler state saved: ${enabled ? 'enabled' : 'disabled'}")
     | Throw thrown => throw thrown
     end)
    (fun thrown =>
       message <- error_message thrown ;;
       call (Log warn "Could not save scheduler state to database:")).

Definition stop : Sched unit :=
  s <- this ;;
  wasRunning <-
    match salesSyncJob s with
    | Some _ =>
        call (CronStop SalesTask) ;;
        assign (set_salesSyncJob None) ;;
        ret true
    | None => ret false
    end ;;
  s <- this ;;
  wasRunning <-
    match registrationSyncJob s with
    | Some _ =>
        call (CronStop RegistrationTask) ;;
        assign (set_registrationSyncJob None) ;;
        ret true
    | None => ret wasRunning
    end ;;
  if wasRunning then
    assign (set_isRunning false) ;;
    saveSchedulerState false ;;
    call (Log info
      "Scheduler stopped - both sales and registration processing halted")
  else
    call (Log info "Scheduler was not running").

Definition start : Sched unit :=
  s <- this ;;
  when (isSome (salesSyncJob s) || isSome (registrationSyncJob s))
    (call (Log warn "Scheduler already running, stopping existing jobs first") ;;
     stop) ;;
  assign (set_salesSyncJob
            (Some (newCronJob "0 */5 * * * *" SalesTask "America/New_York"))) ;;
  assign (set_registrationSyncJob
            (Some (newCronJob "0 * * * * *" RegistrationTask
                     "America/New_York"))) ;;
  assign (fun s => set_salesSyncJob (option_map job_start (salesSyncJob s)) s) ;;
  call (CronStart SalesTask) ;;
  assign (fun s =>
            set_registrationSyncJob
              (option_map job_start (registrationSyncJob s)) s) ;;
  call (CronStart RegistrationTask) ;;
  assign (set_isRunning true) ;;
  saveSchedulerState true ;;
  call (Log info
    "Scheduler started - Sales: every 5 minutes, Registrations: every 1 minute") ;;
  call (Log info "Next sales run: ${this.salesSyncJob.nextDate().toString()}") ;;
  call (Log info
    "Next registration run: ${this.registrationSyncJob.nextDate().toString()}").

Definition forceStop : Sched unit :=
  assign (set_isRunning false) ;;
  s <- this ;;
  match salesSyncJob s with
  | Some _ => call (CronStop SalesTask) ;; assign (set_salesSyncJob None)
  | None => ret tt
  end ;;
  s <- this ;;
  match registrationSyncJob s with
  | Some _ =>
      call (CronStop RegistrationTask) ;; assign (set_registrationSyncJob None)
  | None => ret tt
  end ;;
  saveSchedulerState false ;;
  call (Log info "Scheduler force stopped - all activity halted").

Definition initializeFromDatabase (w : World) : Sched unit :=
  try_catch
    (savedState <- await (GetSystemState "scheduler_enabled")
                     (getSystemState w "scheduler_enabled") ;;
     match savedState with
     | Some v =>
         if String.eqb v "true" then
           call (Log info "Scheduler was enabled, starting automatically...") ;;
           start
         else
           call (Log info
             "Scheduler is disabled by default - use dashboard to start")
     | None =>
         call (Log info
           "Scheduler is disabled by default - use dashboard to start")
     end)
    (fun thrown =>
       message <- error_message thrown ;;
       call (Log warn "Could not load scheduler state from database:") ;;
       call (Log info "Scheduler will remain stopped until manually started")).

Definition resetErrorCounter : Sched unit :=
  assign (set_consecutiveErrors 0) ;;
  call (Log info "Scheduler error counter reset").

Definition isHealthy (s : SchedulerService) : bool :=
  isRunning s && (consecutiveErrors s <? maxConsecutiveErrors s).

(** ** The two sync runs *)

(** [results.filter(p).length] *)
Definition countWhere (p : PostResult -> bool) (results : list PostResult)
  : Z :=
  Z.of_nat (List.length (filter p results)).

(** The body of the [try] block of [runSalesSync]. *)
Definition runSalesSync_try (w : World) : Sched unit :=
  await RefreshTimeCache (refreshTimeCache w) ;;
  result <- await SalesProcessingProcessNewSales
              (salesProcessing_processNewSales w) ;;
  autoPostResults <-
    (if (0 <? newSales result)
        && (0 <? Z.of_nat (List.length (processedSales result)))
     then
       autoPostSettings <- await GetSettings (getSettings w) ;;
       permitted <-
         (if enabled autoPostSettings
          then call IsAutoPostingEnabled ;; ret (isAutoPostingEnabled w)
          else ret false) ;;
       if permitted then
         call (Log info
           "Auto-posting ${result.processedSales.length} new sales...") ;;
         posted <- await (AutoTweetProcessNewSales (processedSales result)
                            autoPostSettings)
                     (autoTweet_processNewSales w (processedSales result)
                        autoPostSettings) ;;
         call (Log info
           "Sales auto-posting results: ${posted} posted, ${skipped} skipped, ${failed} failed") ;;
         ret posted
       else ret []
     else ret []) ;;
  assign (set_lastRunTime (Some (startTime w))) ;;
  assign (set_lastRunStats (Some (SalesRunStats result autoPostResults))) ;;
  assign (set_consecutiveErrors 0) ;;
  call (Log info "Sales sync completed in ${duration}ms:") ;;
  when (0 <? newSales result)
    (call (Log info "Found ${result.newSales} new sales to process")) ;;
  when (0 <? countWhere success autoPostResults)
    (call (Log info "Posted ${salesPosted} sale tweets")) ;;
  when (0 <? errors result)
    (call (Log warn "Encountered ${result.errors} errors during processing")).

(** The [catch] block of [runSalesSync]; [thrown] is the source's [error].
    The arguments of [logger.error] are evaluated before the call,
    [error.message] among them. *)
Definition runSalesSync_catch (thrown : Thrown) : Sched unit :=
  assign (fun s => set_consecutiveErrors (consecutiveErrors s + 1) s) ;;
  message <- error_message thrown ;;
  call (Log error
    "Scheduled sync failed (attempt ${this.consecutiveErrors}/${this.maxConsecutiveErrors}):") ;;
  s <- this ;;
  message <- error_message thrown ;;
  assign (set_lastRunStats
            (Some (FailureStats message (consecutiveErrors s)))) ;;
  s <- this ;;
  when (maxConsecutiveErrors s <=? consecutiveErrors s)
    (call (Log error
       "Too many consecutive errors (${this.consecutiveErrors}). Stopping scheduler for safety.") ;;
     stop ;;
     call (Log error
       "SCHEDULER STOPPED DUE TO REPEATED FAILURES - Manual intervention required")).

(** The [try]/[catch] statement of [runSalesSync]. *)
Definition runSalesSync_guarded (w : World) : Sched unit :=
  try_catch (runSalesSync_try w) runSalesSync_catch.

Definition runSalesSync (w : World) : Sched unit :=
  s <- this ;;
  if negb (isRunning s) then
    call (Log debug "Skipping sales sync - scheduler is stopped")
  else
    call (Log info "Starting sales sync...") ;;
    runSalesSync_guarded w.

(** The body of the [try] block of [runRegistrationSync]. *)
Definition runRegistrationSync_try (w : World) : Sched unit :=
  unpostedRegistrations <-
    await (GetUnpostedRegistrations 10) (getUnpostedRegistrations w 10) ;;
  registrationAutoPostResults <-
    (if 0 <? Z.of_nat (List.length unpostedRegistrations) then
       autoPostSettings <- await GetSettings (getSettings w) ;;
       permitted <-
         (if enabled autoPostSettings && registrationsEnabled autoPostSettings
          then call IsAutoPostingEnabled ;; ret (isAutoPostingEnabled w)
          else ret false) ;;
       if permitted then
         call (Log info
           "Auto-posting ${unpostedRegistrations.length} unposted registrations...") ;;
         posted <- await (AutoTweetProcessNewRegistrations
                            unpostedRegistrations autoPostSettings)
                     (autoTweet_processNewRegistrations w
                        unpostedRegistrations autoPostSettings) ;;
         call (Log info
           "Registration auto-posting results: ${posted} posted, ${skipped} skipped, ${failed} failed") ;;
         ret posted
       else ret []
     else ret []) ;;
  call (Log info "Registration sync completed in ${duration}ms:") ;;
  when (0 <? Z.of_nat (List.length unpostedRegistrations))
    (call (Log info
       "Processed ${unpostedRegistrations.length} registrations: ${registrationsPosted} posted, ${unpostedRegistrations.length - registrationsPosted} skipped/failed")) ;;
  when (0 <? countWhere success registrationAutoPostResults)
    (call (Log info "Posted ${registrationsPosted} registration tweets")).

(** The [try]/[catch] statement of [runRegistrationSync]. *)
Definition runRegistrationSync_guarded (w : World) : Sched unit :=
  try_catch (runRegistrationSync_try w)
    (fun thrown =>
       message <- error_message thrown ;;
       call (Log error "Registration sync failed:")).

Definition runRegistrationSync (w : World) : Sched unit :=
  s <- this ;;
  if negb (isRunning s) then
    call (Log debug "Skipping registration sync - scheduler is stopped")
  else
    call (Log info "Starting registration sync...") ;;
    runRegistrationSync_guarded w.

(** ** Manual trigger *)

(** The object [triggerManualSync] resolves to: [{ success, stats?, error? }]. *)
Record ManualSyncResult : Type := mkManualSyncResult {
  sync_success : bool;
  sync_stats : option string;
  sync_error : option string
}.

(** The two runs are awaited one after the other; each has its own world. *)
Definition triggerManualSync (wSales wRegistrations : World)
  : Sched ManualSyncResult :=
  try_catch
    (call (Log info
       "Manual sync triggered - running both sales and registration processing") ;;
     runSalesSync wSales ;;
     runRegistrationSync wRegistrations ;;
     ret (mkManualSyncResult true
            (Some "Both sales and registration sync completed") None))
    (fun thrown =>
       message <- error_message thrown ;;
       call (Log error "Manual sync failed:") ;;
       message <- error_message thrown ;;
       ret (mkManualSyncResult false None message)).

(** ** Status and introspection *)

(** The object [getStatus] returns. *)
Record Status : Type := mkStatus {
  status_isRunning : bool;
  status_lastRunTime : option Z;
  nextRunTime : option Z;
  nextSalesRunTime : option Z;
  nextRegistrationRunTime : option Z;
  status_lastRunStats : option RunStats;
  status_consecutiveErrors : Z;
  uptime : Z
}.

Definition getStatus (h : Host) (s : SchedulerService) : Status :=
  let nextSalesRunTime := option_map (nextDate h) (salesSyncJob s) in
  let nextRegistrationRunTime :=
    option_map (nextDate h) (registrationSyncJob s) in
  let nextRunTime :=
    match nextSalesRunTime, nextRegistrationRunTime with
    | Some sale, Some reg => Some (if sale <? reg then sale else reg)
    | Some sale, None => Some sale
    | None, Some reg => Some reg
    | None, None => None
    end in
  {| status_isRunning := isRunning s;
     status_lastRunTime := lastRunTime s;
     nextRunTime := nextRunTime;
     nextSalesRunTime := nextSalesRunTime;
     nextRegistrationRunTime := nextRegistrationRunTime;
     status_lastRunStats := lastRunStats s;
     status_consecutiveErrors := consecutiveErrors s;
     uptime := match lastRunTime s with
               | Some t => dateNow h - t
               | None => 0
               end |}.

(** [count] is a whole number; its default value is 5. *)
Definition getUpcomingRuns (h : Host) (s : SchedulerService) (count : Z)
  : UpcomingRuns :=
  match salesSyncJob s, registrationSyncJob s with
  | Some salesJob, Some registrationJob =>
      let salesRuns :=
        for_push (Z.to_nat count) 0 (fun i =>
          let nextSalesRun := nextDate h salesJob in
          JSDate.setMinutes (localTZA h) nextSalesRun
            (JSDate.getMinutes (localTZA h) nextSalesRun + i * 5)) in
      let registrationRuns :=
        for_push (Z.to_nat count) 0 (fun i =>
          let nextRegRun := nextDate h registrationJob in
          JSDate.setMinutes (localTZA h) nextRegRun
            (JSDate.getMinutes (localTZA h) nextRegRun + i)) in
      {| sales := salesRuns; registrations := registrationRuns |}
  | _, _ => {| sales := []; registrations := [] |}
  end.

(** ** Histories of the object *)

(** What can happen to the object: a call of a public method, a firing of
    one of the two cron jobs, or the resumption of a run that passed its
    guard earlier and was suspended at an [await] while other operations
    ran (the runs only touch the object after their last [await]). *)
Inductive Op : Type :=
| CallStart
| CallStop
| CallForceStop
| CallResetErrorCounter
| CallInitializeFromDatabase (w : World)
| CallTriggerManualSync (wSales wRegistrations : World)
| FireSales (w : World)
| FireRegistration (w : World)
| ResumeSales (w : World)
| ResumeRegistration (w : World).

Definition step (o : Op) (s : SchedulerService) : SchedulerService :=
  match o with
  | CallStart => state_of (start s)
  | CallStop => state_of (stop s)
  | CallForceStop => state_of (forceStop s)
  | CallResetErrorCounter => state_of (resetErrorCounter s)
  | CallInitializeFromDatabase w => state_of (initializeFromDatabase w s)
  | CallTriggerManualSync w1 w2 => state_of (triggerManualSync w1 w2 s)
  | FireSales w => state_of (runSalesSync w s)
  | FireRegistration w => state_of (runRegistrationSync w s)
  | ResumeSales w => state_of (runSalesSync_guarded w s)
  | ResumeRegistration w => state_of (runRegistrationSync_guarded w s)
  end.

Inductive reachable : SchedulerService -> Prop :=
| reachable_initial : reachable initial
| reachable_step (o : Op) (s : SchedulerService) :
    reachable s -> reachable (step o s).

(** Both schedule handles are present and started. *)
Definition bothActive (s : SchedulerService) : Prop :=
  exists salesJob registrationJob,
    salesSyncJob s = Some salesJob /\
    registrationSyncJob s = Some registrationJob /\
    active salesJob = true /\ active registrationJob = true.

Definition handlesInvariant (s : SchedulerService) : Prop :=
  isRunning s = true <-> bothActive s.

(** In every state the class can reach, the two handles stand or fall
    together with the [isRunning] flag. *)
Definition handlesPaired (s : SchedulerService) : Prop :=
  (isRunning s = true /\ bothActive s) \/
  (isRunning s = false /\
   salesSyncJob s = None /\ registrationSyncJob s = None).

(** [s'] has the schedule of [s]: same handles, same flag, same threshold. *)
Definition sameSchedule (s s' : SchedulerService) : Prop :=
  salesSyncJob s' = salesSyncJob s /\
  registrationSyncJob s' = registrationSyncJob s /\
  isRunning s' = isRunning s /\
  maxConsecutiveErrors s' = maxConsecutiveErrors s.

(** [s'] is [s] with the schedule taken down as [stop] does it. *)
Definition scheduleStopped (s s' : SchedulerService) : Prop :=
  salesSyncJob s' = None /\
  registrationSyncJob s' = None /\
  isRunning s' =
    (if isSome (salesSyncJob s) || isSome (registrationSyncJob s)
     then false else isRunning s) /\
  maxConsecutiveErrors s' = maxConsecutiveErrors s.

(** The runs of a list of worlds, one sales sync per world, in order. *)
Fixpoint salesRuns (ws : list World) (s : SchedulerService)
  : SchedulerService :=
  match ws with
  | [] => s
  | w :: ws' => salesRuns ws' (state_of (runSalesSync w s))
  end.

(** Every run of the list passes its guard and ends in its [catch] block. *)
Fixpoint allSalesRunsFail (ws : list World) (s : SchedulerService) : Prop :=
  match ws with
  | [] => True
  | w :: ws' =>
      isRunning s = true /\
      threw (completion_of (runSalesSync_try w s)) = true /\
      allSalesRunsFail ws' (state_of (runSalesSync w s))
  end.

Fixpoint registrationRuns (ws : list World) (s : SchedulerService)
  : SchedulerService :=
  match ws with
  | [] => s
  | w :: ws' => registrationRuns ws' (state_of (runRegistrationSync w s))
  end.

(** ** Reading traces *)

Definition isAutoTweetProcessNewSales (e : Effect) : bool :=
  match e with AutoTweetProcessNewSales _ _ => true | _ => false end.

(** [autoTweetService.processNewSales] was called. *)
Definition postingPipelineInvoked (t : list Effect) : bool :=
  existsb isAutoTweetProcessNewSales t.

Definition isSetSystemState (e : Effect) : bool :=
  match e with SetSystemState _ _ => true | _ => false end.

(** [databaseService.setSystemState] was called. *)
Definition statePersisted (t : list Effect) : bool :=
  existsb isSetSystemState t.

(** Every path through [stop] ends with one of two log lines that no other
    method writes; they mark its calls in a trace. *)
Definition isStopMark (e : Effect) : bool :=
  match e with
  | Log info m =>
      String.eqb m
        "Scheduler stopped - both sales and registration processing halted"
      || String.eqb m "Scheduler was not running"
  | _ => false
  end.

Definition stopInvoked (t : list Effect) : bool :=
  existsb isStopMark t.

End Scheduler.

Arguments ProcessingResult : clear implicits.
Arguments RunStats : clear implicits.
Arguments SchedulerService : clear implicits.
Arguments Effect : clear implicits.
Arguments World : clear implicits.
Arguments Sched : clear implicits.
Arguments Status : clear implicits.
Arguments Op : clear implicits.

(** * Histories with their traces *)

Section Histories.

Context {ProcessedSale ENSRegistration : Type}.

(** The method an operation runs, its result dropped. *)
Definition perform (o : Op ProcessedSale ENSRegistration)
  : Sched ProcessedSale ENSRegistration unit :=
  match o with
  | CallStart => start
  | CallStop => stop
  | CallForceStop => forceStop
  | CallResetErrorCounter => resetErrorCounter
  | CallInitializeFromDatabase w => initializeFromDatabase w
  | CallTriggerManualSync w1 w2 =>
      bind (triggerManualSync w1 w2) (fun _ => ret tt)
  | FireSales w => runSalesSync w
  | FireRegistration w => runRegistrationSync w
  | ResumeSales w => runSalesSync_guarded w
  | ResumeRegistration w => runRegistrationSync_guarded w
  end.

(** The object after a list of operations, and every call they made. *)
Fixpoint history (ops : list (Op ProcessedSale ENSRegistration))
  (s : SchedulerService ProcessedSale)
  : SchedulerService ProcessedSale * list (Effect ProcessedSale ENSRegistration) :=
  match ops with
  | [] => (s, [])
  | o :: ops' =>
      let r := perform o s in
      let rest := history ops' (state_of r) in
      (fst rest, trace_of r ++ snd rest)
  end.

Definition Task_eqb (a b : Task) : bool :=
  match a, b with
  | SalesTask, SalesTask => true
  | RegistrationTask, RegistrationTask => true
  | _, _ => false
  end.

(** The timers of a task that a trace leaves armed: one more for each
    [job.start()], one less for each [job.stop()]. *)
Fixpoint timersArmed (t : Task)
  (tr : list (Effect ProcessedSale ENSRegistration)) : Z :=
  match tr with
  | [] => 0
  | CronStart t' :: tr' =>
      (if Task_eqb t t' then 1 else 0) + timersArmed t tr'
  | CronStop t' :: tr' =>
      (if Task_eqb t t' then -1 else 0) + timersArmed t tr'
  | _ :: tr' => timersArmed t tr'
  end.

Definition handleHeld (job : option CronJob) : Z :=
  if isSome job then 1 else 0.

(** The handle the object keeps for a task. *)
Definition jobOf (t : Task) (s : SchedulerService ProcessedSale)
  : option CronJob :=
  match t with
  | SalesTask => salesSyncJob s
  | RegistrationTask => registrationSyncJob s
  end.

(** The value of the key [scheduler_enabled] in a database that held
    [before] and then received the writes of a trace. *)
Fixpoint persistedAfter (before : option string)
  (tr : list (Effect ProcessedSale ENSRegistration)) : option string :=
  match tr with
  | [] => before
  | SetSystemState key value :: tr' =>
      persistedAfter
        (if String.eqb key "scheduler_enabled" then Some value else before)
        tr'
  | _ :: tr' => persistedAfter before tr'
  end.

(** [enabled.toString()] *)
Definition boolToString (b : bool) : string :=
  if b then "true" else "false".

(** The trace has a call to something other than the logger. *)
Definition collaboratorCalled
  (tr : list (Effect ProcessedSale ENSRegistration)) : bool :=
  existsb (fun e => match e with Log _ _ => false | _ => true end) tr.

(** [autoTweetService.getSettings] was called. *)
Definition settingsFetched
  (tr : list (Effect ProcessedSale ENSRegistration)) : bool :=
  existsb (fun e => match e with GetSettings => true | _ => false end) tr.

(** [autoTweetService.processNewRegistrations] was called. *)
Definition registrationPipelineInvoked
  (tr : list (Effect ProcessedSale ENSRegistration)) : bool :=
  existsb
    (fun e =>
       match e with AutoTweetProcessNewRegistrations _ _ => true | _ => false end)
    tr.

(** A cron job was started. *)
Definition cronStarted
  (tr : list (Effect ProcessedSale ENSRegistration)) : bool :=
  existsb (fun e => match e with CronStart _ => true | _ => false end) tr.

(** No collaborator of the world rejects with [null] or [undefined]. *)
Definition neverRejectsNullish (w : World ProcessedSale ENSRegistration)
  : Prop :=
  (forall key, rejectsNullish (getSystemState w key) = false) /\
  rejectsNullish (refreshTimeCache w) = false /\
  rejectsNullish (salesProcessing_processNewSales w) = false /\
  rejectsNullish (getSettings w) = false /\
  (forall sales settings,
     rejectsNullish (autoTweet_processNewSales w sales settings) = false) /\
  (forall limit, rejectsNullish (getUnpostedRegistrations w limit) = false) /\
  (forall registrations settings,
     rejectsNullish (autoTweet_processNewRegistrations w registrations settings)
       = false).

(** The same of every world an operation runs in. *)
Definition noNullishRejection (o : Op ProcessedSale ENSRegistration) : Prop :=
  match o with
  | CallStart | CallStop | CallForceStop | CallResetErrorCounter => True
  | CallInitializeFromDatabase w => neverRejectsNullish w
  | CallTriggerManualSync w1 w2 =>
      neverRejectsNullish w1 /\ neverRejectsNullish w2
  | FireSales w | FireRegistration w | ResumeSales w | ResumeRegistration w =>
      neverRejectsNullish w
  end.

(** What a method does to the database and to the flag, from object [s] to
    object [s'] with trace [tr]: nothing to either, or a last write that
    spells the flag. *)
Definition writesTheFlag (before : option string)
  (s s' : SchedulerService ProcessedSale)
  (tr : list (Effect ProcessedSale ENSRegistration)) : Prop :=
  (persistedAfter before tr = before /\ isRunning s' = isRunning s) \/
  persistedAfter before tr = Some (boolToString (isRunning s')).

End Histories.

(** * Sample objects and worlds

    Concrete inputs on which the properties below are exercised; sales and
    registrations are stood for by their names. *)

Module Sample.

Definition Sale : Type := string.
Definition Registration : Type := string.

Definition threeSales : ProcessingResult Sale :=
  {| fetched := 5; newSales := 3; duplicates := 2; errors := 0;
     processedSales := ["a.eth"; "b.eth"; "c.eth"] |}.

(** Three new sales, posting enabled in the settings, global gate closed. *)
Definition gateClosed : World Sale Registration :=
  {| startTime := 1767225600000;
     getSystemState := fun _ => Normal (Some "true");
     refreshTimeCache := Normal tt;
     salesProcessing_processNewSales := Normal threeSales;
     getSettings := Normal (mkSettings true true);
     isAutoPostingEnabled := false;
     autoTweet_processNewSales := fun sales _ =>
       Normal (map (fun _ => mkPostResult true false) sales);
     getUnpostedRegistrations := fun _ => Normal [];
     autoTweet_processNewRegistrations := fun regs _ =>
       Normal (map (fun _ => mkPostResult true false) regs) |}.

(** The same world with the global gate open. *)
Definition gateOpen : World Sale Registration :=
  {| startTime := 1767225600000;
     getSystemState := fun _ => Normal (Some "true");
     refreshTimeCache := Normal tt;
     salesProcessing_processNewSales := Normal threeSales;
     getSettings := Normal (mkSettings true true);
     isAutoPostingEnabled := true;
     autoTweet_processNewSales := fun sales _ =>
       Normal (map (fun _ => mkPostResult true false) sales);
     getUnpostedRegistrations := fun _ => Normal [];
     autoTweet_processNewRegistrations := fun regs _ =>
       Normal (map (fun _ => mkPostResult true false) regs) |}.

(** A world in which the time service and the database are down. *)
Definition outage : World Sale Registration :=
  {| startTime := 1767225900000;
     getSystemState := fun _ => Throw (WithMessage "database is locked");
     refreshTimeCache := Throw (WithMessage "time server unreachable");
     salesProcessing_processNewSales := Throw (WithMessage "upstream unavailable");
     getSettings := Throw (WithMessage "database is locked");
     isAutoPostingEnabled := true;
     autoTweet_processNewSales := fun _ _ => Throw (WithMessage "rate limited");
     getUnpostedRegistrations := fun _ => Throw (WithMessage "database is locked");
     autoTweet_processNewRegistrations := fun _ _ => Throw (WithMessage "rate limited") |}.

(** A scheduler that has just been started. *)
Definition started : SchedulerService Sale :=
  step (CallStart : Op Sale Registration) initial.

(** A started scheduler after four failed sales runs in a row. *)
Definition nearThreshold : SchedulerService Sale :=
  salesRuns [outage; outage; outage; outage] started.

(** A host five hours behind UTC; the sales job fires next at 00:05:00 UTC
    on 1 January 2026, the registration job four minutes earlier. *)
Definition host : Host :=
  {| dateNow := 1767225630000;
     nextDate := fun job =>
       match onTick job with
       | SalesTask => 1767225900000
       | RegistrationTask => 1767225660000
       end;
     localTZA := fun _ _ => -18000000 |}.

End Sample.

(** Further sample worlds and objects. *)
Module MoreSample.

Import Sample.

(** A fetch that finds nothing new. *)
Definition noNewSales : World Sale Registration :=
  {| startTime := 1767226200000;
     getSystemState := fun _ => Normal (Some "false");
     refreshTimeCache := Normal tt;
     salesProcessing_processNewSales :=
       Normal {| fetched := 4; newSales := 0; duplicates := 4; errors := 0;
                 processedSales := [] |};
     getSettings := Normal (mkSettings true true);
     isAutoPostingEnabled := true;
     autoTweet_processNewSales := fun sales _ =>
       Normal (map (fun _ => mkPostResult true false) sales);
     getUnpostedRegistrations := fun _ => Normal [];
     autoTweet_processNewRegistrations := fun regs _ =>
       Normal (map (fun _ => mkPostResult true false) regs) |}.

(** Two registrations wait to be posted; every flag is on. *)
Definition registrationsWaiting : World Sale Registration :=
  {| startTime := 1767225660000;
     getSystemState := fun _ => Normal (Some "true");
     refreshTimeCache := Normal tt;
     salesProcessing_processNewSales := Normal threeSales;
     getSettings := Normal (mkSettings true true);
     isAutoPostingEnabled := true;
     autoTweet_processNewSales := fun sales _ =>
       Normal (map (fun _ => mkPostResult true false) sales);
     getUnpostedRegistrations := fun _ => Normal ["x.eth"; "y.eth"];
     autoTweet_processNewRegistrations := fun regs _ =>
       Normal (map (fun _ => mkPostResult true false) regs) |}.

(** A scheduler that five failed sales runs have stopped. *)
Definition tripped : SchedulerService Sale :=
  salesRuns [outage; outage; outage; outage; outage] started.

(** A day in the life: start, a failed run, a good run, a manual sync
    during an outage, stop, start again. *)
Definition busyDay : list (Op Sale Registration) :=
  [CallStart; FireSales outage; FireRegistration registrationsWaiting;
   FireSales gateOpen; CallTriggerManualSync outage outage; CallStop;
   CallStart].

End MoreSample.

(** * The emoji map generator

    [scripts/generate-emoji-map.js] looks, for each emoji of a fixed table,
    for the first of its candidate file names that exists as an [.svg] file
    in the emoji directory, and collects the matches in an object.  The
    directory listing is the input; the object and the two counters the
    script prints are the output (the object is then written out as JSON). *)

Module GenerateEmojiMap.

Section Objects.

Context {V : Type}.

(** [obj[key] = value] on an object whose properties are kept in insertion
    order: an existing property keeps its place. *)
Fixpoint setProperty (obj : list (string * V)) (key : string) (value : V)
  : list (string * V) :=
  match obj with
  | [] => [(key, value)]
  | (k, v) :: rest =>
      if String.eqb k key then (k, value) :: rest
      else (k, v) :: setProperty rest key value
  end.

(** [obj[key]], with [None] for [undefined]. *)
Fixpoint getProperty (obj : list (string * V)) (key : string) : option V :=
  match obj with
  | [] => None
  | (k, v) :: rest => if String.eqb k key then Some v else getProperty rest key
  end.

(** An object literal: its properties are defined one after the other. *)
Definition objectLiteral (rows : list (string * V)) : list (string * V) :=
  fold_left (fun obj row => setProperty obj (fst row) (snd row)) rows [].

End Objects.

(** [s.endsWith(suffix)] *)
Definition endsWith (s suffix : string) : bool :=
  (String.length suffix <=? String.length s)%nat
  && String.eqb
       (substring (String.length s - String.length suffix)
          (String.length suffix) s)
       suffix.

(** [files.includes(fileName)] *)
Definition includes (files : list string) (fileName : string) : bool :=
  existsb (String.eqb fileName) files.

(** The inner loop: [foundFile] after it, [None] for [null]. *)
Fixpoint firstPresent (allFiles possibleFiles : list string) : option string :=
  match possibleFiles with
  | [] => None
  | fileName :: rest =>
      if includes allFiles fileName then Some fileName
      else firstPresent allFiles rest
  end.

(** The variables the outer loop updates. *)
Record Tally : Type := mkTally {
  emojiMap : list (string * string);
  found : Z;
  notFound : Z
}.

(** The test [if (foundFile)]: [null] and the empty string do not pass. *)
Definition truthy (foundFile : option string) : option string :=
  match foundFile with
  | Some fileName => if String.eqb fileName "" then None else Some fileName
  | None => None
  end.

(** One iteration of the outer loop. *)
Definition visit (allFiles : list string) (acc : Tally)
  (entry : string * list string) : Tally :=
  match truthy (firstPresent allFiles (snd entry)) with
  | Some foundFile =>
      mkTally (setProperty (emojiMap acc) (fst entry) foundFile)
        (found acc + 1) (notFound acc)
  | None => mkTally (emojiMap acc) (found acc) (notFound acc + 1)
  end.

(** The outer loop over [Object.entries(table)]. *)
Definition generate (allFiles : list string)
  (table : list (string * list string)) : Tally :=
  fold_left (visit allFiles) table (mkTally [] 0 0).

(** The literal [commonEmojis], row by row as written. *)
Definition commonEmojisLiteral : list (string * list string) := [
  ("🔥", ["Fire.svg"]);
  ("👨‍⚖️", ["Judge.svg"; "Man Judge.svg"]);
  ("⚡", ["High Voltage.svg"]);
  ("❤️", ["Red Heart.svg"]);
  ("😀", ["Grinning Face.svg"]);
  ("😂", ["Face With Tears Of Joy.svg"]);
  ("🚀", ["Rocket.svg"]);
  ("💎", ["Gem Stone.svg"]);
  ("🏆", ["Trophy.svg"]);
  ("🎉", ["Party Popper.svg"]);
  ("⭐", ["Star.svg"]);
  ("💰", ["Money Bag.svg"]);
  ("📈", ["Chart Increasing.svg"]);
  ("🔴", ["Red Circle.svg"; "Large Red Circle.svg"]);
  ("🟢", ["Green Circle.svg"; "Large Green Circle.svg"]);
  ("🔵", ["Blue Circle.svg"; "Large Blue Circle.svg"]);
  ("💯", ["Hundred Points.svg"]);
  ("🎯", ["Direct Hit.svg"]);
  ("🌈", ["Rainbow.svg"]);
  ("⚽", ["Soccer Ball.svg"]);
  ("🏀", ["Basketball.svg"]);
  ("🎮", ["Video Game.svg"]);
  ("🎸", ["Guitar.svg"]);
  ("📱", ["Mobile Phone.svg"]);
  ("💻", ["Laptop.svg"]);
  ("🚗", ["Automobile.svg"]);
  ("✈️", ["Airplane.svg"]);
  ("🏠", ["House.svg"]);
  ("🌍", ["Globe Showing Europe Africa.svg"]);
  ("🌎", ["Globe Showing Americas.svg"]);
  ("🌏", ["Globe Showing Asia Australia.svg"]);
  ("🌙", ["Crescent Moon.svg"]);
  ("☀️", ["Sun.svg"]);
  ("⛅", ["Sun Behind Cloud.svg"]);
  ("🌧️", ["Cloud With Rain.svg"]);
  ("❄️", ["Snowflake.svg"]);
  ("🍎", ["Red Apple.svg"]);
  ("🍕", ["Pizza.svg"]);
  ("🍔", ["Hamburger.svg"]);
  ("☕", ["Hot Beverage.svg"]);
  ("🍺", ["Beer Mug.svg"]);
  ("🎂", ["Birthday Cake.svg"]);
  ("🐶", ["Dog Face.svg"]);
  ("🐱", ["Cat Face.svg"]);
  ("🦄", ["Unicorn.svg"]);
  ("🌸", ["Cherry Blossom.svg"]);
  ("🌹", ["Rose.svg"]);
  ("🌻", ["Sunflower.svg"]);
  ("👍", ["Thumbs Up.svg"]);
  ("👎", ["Thumbs Down.svg"]);
  ("👏", ["Clapping Hands.svg"]);
  ("🤝", ["Handshake.svg"]);
  ("💪", ["Flexed Biceps.svg"]);
  ("👀", ["Eyes.svg"]);
  ("👂", ["Ear.svg"]);
  ("👃", ["Nose.svg"]);
  ("👄", ["Mouth.svg"]);
  ("🧠", ["Brain.svg"]);
  ("💘", ["Heart With Arrow.svg"]);
  ("💕", ["Two Hearts.svg"]);
  ("💖", ["Sparkling Heart.svg"]);
  ("💗", ["Growing Heart.svg"]);
  ("💙", ["Blue Heart.svg"]);
  ("💚", ["Green Heart.svg"]);
  ("💛", ["Yellow Heart.svg"]);
  ("🧡", ["Orange Heart.svg"]);
  ("💜", ["Purple Heart.svg"]);
  ("🖤", ["Black Heart.svg"]);
  ("🤍", ["White Heart.svg"]);
  ("🤎", ["Brown Heart.svg"]);
  ("🐸", ["Frog.svg"]);
  ("🐢", ["Turtle.svg"]);
  ("🦊", ["Fox.svg"]);
  ("🐯", ["Tiger Face.svg"]);
  ("🦁", ["Lion.svg"]);
  ("🐨", ["Koala.svg"]);
  ("🐼", ["Panda.svg"]);
  ("🐵", ["Monkey Face.svg"]);
  ("🙈", ["See No Evil Monkey.svg"]);
  ("🙉", ["Hear No Evil Monkey.svg"]);
  ("🙊", ["Speak No Evil Monkey.svg"]);
  ("🌟", ["Glowing Star.svg"]);
  ("💫", ["Dizzy.svg"]);
  ("⚡", ["High Voltage.svg"]);
  ("🔆", ["Bright Button.svg"]);
  ("🌞", ["Sun With Face.svg"]);
  ("🌝", ["Full Moon Face.svg"]);
  ("🌛", ["First Quarter Moon Face.svg"]);
  ("🌜", ["Last Quarter Moon Face.svg"]);
  ("🌚", ["New Moon Face.svg"]);
  ("🌕", ["Full Moon.svg"]);
  ("🌖", ["Waning Gibbous Moon.svg"]);
  ("🌗", ["Last Quarter Moon.svg"]);
  ("🌘", ["Waning Crescent Moon.svg"]);
  ("🌑", ["New Moon.svg"]);
  ("🌒", ["Waxing Crescent Moon.svg"]);
  ("🌓", ["First Quarter Moon.svg"]);
  ("🌔", ["Waxing Gibbous Moon.svg"])
].

Definition commonEmojis : list (string * list string) :=
  objectLiteral commonEmojisLiteral.

(** [allFiles]: the entries of the directory that end in [.svg]. *)
Definition svgFiles (dir : list string) : list string :=
  filter (fun file => endsWith file ".svg") dir.

(** The script, from the listing of the emoji directory. *)
Definition script (dir : list string) : Tally :=
  generate (svgFiles dir) commonEmojis.

End GenerateEmojiMap.

(** Sample inputs at the edges: a promise rejected without a reason, and a
    host in New York on the night the clocks go back. *)
Module EdgeSample.

Import Sample.

(** The time service fails with [Promise.reject()]: the reason is
    [undefined]. *)
Definition silentOutage : World Sale Registration :=
  {| startTime := 1767225900000;
     getSystemState := fun _ => Throw UndefinedValue;
     refreshTimeCache := Throw UndefinedValue;
     salesProcessing_processNewSales := Throw UndefinedValue;
     getSettings := Throw UndefinedValue;
     isAutoPostingEnabled := true;
     autoTweet_processNewSales := fun _ _ => Throw UndefinedValue;
     getUnpostedRegistrations := fun _ => Throw UndefinedValue;
     autoTweet_processNewRegistrations := fun _ _ => Throw UndefinedValue |}.

(** The local time zone adjustment of [America/New_York] around the end of
    daylight saving time in 2026: four hours behind UTC before
    2026-11-01T06:00:00Z and five after; a local time before 02:00 of that
    night is read with the offset before the change. *)
Definition newYorkTZA (t : Z) (isUTC : bool) : Z :=
  if isUTC then
    if t <? 1793512800000 then -14400000 else -18000000
  else
    if t <? 1793498400000 then -14400000 else -18000000.

(** Five minutes before the clocks go back: the sales job fires next at
    05:55:00Z (01:55 local), the registration job at 05:51:00Z. *)
Definition beforeFallBack : Host :=
  {| dateNow := 1793512230000;
     nextDate := fun job =>
       match onTick job with
       | SalesTask => 1793512500000
       | RegistrationTask => 1793512260000
       end;
     localTZA := newYorkTZA |}.

(** Inside the repeated hour: the sales job fires next at 06:30:00Z (01:30
    local, for the second time), the registration job at 06:26:00Z. *)
Definition repeatedHour : Host :=
  {| dateNow := 1793514330000;
     nextDate := fun job =>
       match onTick job with
       | SalesTask => 1793514600000
       | RegistrationTask => 1793514360000
       end;
     localTZA := newYorkTZA |}.

End EdgeSample.

(** * Properties *)

Section Properties.

Context {ProcessedSale ENSRegistration : Type}.

Local Abbreviation Service := (SchedulerService ProcessedSale).
Local Abbreviation world := (World ProcessedSale ENSRegistration).
Local Abbreviation op := (Op ProcessedSale ENSRegistration).

Implicit Types (s : Service) (w : world) (o : op).

Ltac unfold_sched :=
  unfold triggerManualSync, initializeFromDatabase, runSalesSync,
    runRegistrationSync, runSalesSync_guarded, runRegistrationSync_guarded,
    runSalesSync_try, runSalesSync_catch, runRegistrationSync_try, start,
    stop, forceStop, resetErrorCounter, saveSchedulerState, error_message,
    throw, when, await, call, assign, this, try_catch, bind, ret, state_of,
    trace_of, completion_of in *.

Ltac split_cases :=
  repeat
    (cbn in *;
     match goal with
     | |- context [match ?x with _ => _ end] =>
         lazymatch x with
         | context [match _ with _ => _ end] => fail
         | _ => destruct x eqn:?
         end
     end).

(** ** [stop], [forceStop], [start] *)

Lemma stop_fields s :
  let s' := state_of (stop (ENSRegistration := ENSRegistration) s) in
  salesSyncJob s' = None /\
  registrationSyncJob s' = None /\
  isRunning s' =
    (if isSome (salesSyncJob s) || isSome (registrationSyncJob s)
     then false else isRunning s) /\
  lastRunTime s' = lastRunTime s /\
  lastRunStats s' = lastRunStats s /\
  consecutiveErrors s' = consecutiveErrors s /\
  maxConsecutiveErrors s' = maxConsecutiveErrors s.
Proof.
  destruct s as [[js|] [jr|] r lt ls ce mx]; cbn; repeat split; reflexivity.
Qed.

Lemma stop_returns s :
  completion_of (stop (ENSRegistration := ENSRegistration) s) = Normal tt.
Proof.
  destruct s as [[js|] [jr|] r lt ls ce mx]; reflexivity.
Qed.

Lemma stop_persists s :
  statePersisted (trace_of (stop (ENSRegistration := ENSRegistration) s)) =
  isSome (salesSyncJob s) || isSome (registrationSyncJob s).
Proof.
  destruct s as [[js|] [jr|] r lt ls ce mx]; reflexivity.
Qed.

Lemma stop_leaves_its_mark s :
  stopInvoked (trace_of (stop (ENSRegistration := ENSRegistration) s)) = true.
Proof.
  destruct s as [[js|] [jr|] r lt ls ce mx]; reflexivity.
Qed.

Lemma stop_without_handles s :
  salesSyncJob s = None -> registrationSyncJob s = None ->
  stop (ENSRegistration := ENSRegistration) s =
  (Normal tt, s, [Log info "Scheduler was not running"]).
Proof.
  destruct s as [js jr r lt ls ce mx]; cbn; intros -> ->; reflexivity.
Qed.

Lemma forceStop_fields s :
  let s' := state_of (forceStop (ENSRegistration := ENSRegistration) s) in
  salesSyncJob s' = None /\
  registrationSyncJob s' = None /\
  isRunning s' = false /\
  lastRunTime s' = lastRunTime s /\
  lastRunStats s' = lastRunStats s /\
  consecutiveErrors s' = consecutiveErrors s /\
  maxConsecutiveErrors s' = maxConsecutiveErrors s.
Proof.
  destruct s as [[js|] [jr|] r lt ls ce mx]; cbn; repeat split; reflexivity.
Qed.

Lemma start_fields s :
  let s' := state_of (start (ENSRegistration := ENSRegistration) s) in
  salesSyncJob s' =
    Some (mkCronJob "0 */5 * * * *" SalesTask "America/New_York" true) /\
  registrationSyncJob s' =
    Some (mkCronJob "0 * * * * *" RegistrationTask "America/New_York" true) /\
  isRunning s' = true /\
  lastRunTime s' = lastRunTime s /\
  lastRunStats s' = lastRunStats s /\
  consecutiveErrors s' = consecutiveErrors s /\
  maxConsecutiveErrors s' = maxConsecutiveErrors s.
Proof.
  destruct s as [[js|] [jr|] r lt ls ce mx]; cbn; repeat split; reflexivity.
Qed.

(** ** The sales run *)

(** The [try] block leaves the object alone when it throws. *)
Lemma runSalesSync_try_throws w s thrown :
  completion_of (runSalesSync_try w s) = Throw thrown ->
  state_of (runSalesSync_try w s) = s.
Proof.
  unfold_sched. split_cases; intros H; try discriminate H; reflexivity.
Qed.

(** When the [try] block completes, the run has recorded its start time,
    the fetch result with the posting outcomes, and a counter of zero; the
    outcomes are those of the posting pipeline when it was called and the
    empty list otherwise. *)
Lemma runSalesSync_try_completes w s :
  threw (completion_of (runSalesSync_try w s)) = false ->
  exists result autoPostResults,
    salesProcessing_processNewSales w = Normal result /\
    state_of (runSalesSync_try w s) =
      set_consecutiveErrors 0
        (set_lastRunStats (Some (SalesRunStats result autoPostResults))
           (set_lastRunTime (Some (startTime w)) s)) /\
    (if postingPipelineInvoked (trace_of (runSalesSync_try w s))
     then exists settings,
            getSettings w = Normal settings /\
            autoTweet_processNewSales w (processedSales result) settings =
              Normal autoPostResults
     else autoPostResults = []).
Proof.
  unfold_sched.
  destruct (refreshTimeCache w) as [u|m]; cbn; [|discriminate].
  destruct (salesProcessing_processNewSales w) as [result|m]; cbn; [|discriminate].
  destruct ((0 <? newSales result)
            && (0 <? Z.of_nat (Datatypes.length (processedSales result)))).
  - destruct (getSettings w) as [settings|m]; cbn; [|discriminate].
    destruct (enabled settings); cbn.
    + destruct (isAutoPostingEnabled w); cbn.
      * destruct (autoTweet_processNewSales w (processedSales result) settings)
          as [posts|m] eqn:Hposts; cbn; [|discriminate].
        intros _. exists result, posts. split; [reflexivity|].
        split; [split_cases; reflexivity|].
        split_cases; cbn; exists settings; split; reflexivity || assumption.
      * intros _. exists result, []. split; [reflexivity|].
        split; split_cases; reflexivity.
    + intros _. exists result, []. split; [reflexivity|].
      split; split_cases; reflexivity.
  - intros _. exists result, []. split; [reflexivity|].
    split; split_cases; reflexivity.
Qed.

Lemma runSalesSync_catch_fields thrown s :
  let s' := state_of (runSalesSync_catch (ENSRegistration := ENSRegistration)
                        thrown s) in
  consecutiveErrors s' = consecutiveErrors s + 1 /\
  lastRunTime s' = lastRunTime s /\
  (if nullish thrown
   then lastRunStats s' = lastRunStats s /\ sameSchedule s s'
   else
     lastRunStats s' =
       Some (FailureStats (messageOf thrown) (consecutiveErrors s + 1)) /\
     (if maxConsecutiveErrors s <=? consecutiveErrors s + 1
      then scheduleStopped s s'
      else sameSchedule s s')).
Proof.
  destruct s as [[js|] [jr|] r lt ls ce mx], thrown; unfold_sched; cbn;
    unfold scheduleStopped, sameSchedule;
    try destruct (mx <=? ce + 1); cbn; repeat split; reflexivity.
Qed.

Lemma runSalesSync_catch_returns thrown s :
  nullish thrown = false ->
  completion_of (runSalesSync_catch (ENSRegistration := ENSRegistration)
                   thrown s) = Normal tt.
Proof.
  destruct s as [[js|] [jr|] r lt ls ce mx], thrown; unfold_sched; cbn;
    try discriminate; intros _; destruct (mx <=? ce + 1); reflexivity.
Qed.

(** On [null] and [undefined] the [catch] block dies reading
    [error.message]: what leaves it is a [TypeError]. *)
Lemma runSalesSync_catch_throws thrown s :
  nullish thrown = true ->
  exists message,
    completion_of (runSalesSync_catch (ENSRegistration := ENSRegistration)
                     thrown s) = Throw (WithMessage message) /\
    trace_of (runSalesSync_catch (ENSRegistration := ENSRegistration)
                thrown s) = [].
Proof.
  destruct thrown; try discriminate; intros _; eexists; split; reflexivity.
Qed.

(** The [try]/[catch] statement either completes the [try] block or runs the
    [catch] block on the object as the run found it. *)
Lemma runSalesSync_guarded_cases w s :
  (threw (completion_of (runSalesSync_try w s)) = false /\
   state_of (runSalesSync_guarded w s) = state_of (runSalesSync_try w s)) \/
  (exists thrown,
     completion_of (runSalesSync_try w s) = Throw thrown /\
     state_of (runSalesSync_guarded w s) =
       state_of (runSalesSync_catch (ENSRegistration := ENSRegistration)
                   thrown s)).
Proof.
  pose proof (runSalesSync_try_throws w s) as Hthrow.
  unfold runSalesSync_guarded, try_catch, state_of, completion_of in *.
  destruct (runSalesSync_try w s) as [[[u|m] s1] t1]; cbn [fst snd] in *.
  - left. split; reflexivity.
  - right. exists m. split; [reflexivity|].
    rewrite (Hthrow m eq_refl).
    destruct (runSalesSync_catch (ENSRegistration := ENSRegistration) m s)
      as [[c s2] t2]. reflexivity.
Qed.

Lemma runSalesSync_skips w s :
  isRunning s = false ->
  runSalesSync w s =
  (Normal tt, s, [Log debug "Skipping sales sync - scheduler is stopped"]).
Proof.
  intros H. unfold runSalesSync, bind, this, call. rewrite H. reflexivity.
Qed.

Lemma runSalesSync_enters w s :
  isRunning s = true ->
  state_of (runSalesSync w s) = state_of (runSalesSync_guarded w s).
Proof.
  intros H. unfold runSalesSync, bind, this, call, state_of. rewrite H. cbn.
  destruct (runSalesSync_guarded w s) as [[c s1] t1]. reflexivity.
Qed.

(** The run completes unless its [try] block threw [null] or [undefined];
    then a [TypeError] leaves it. *)
Lemma runSalesSync_guarded_completion w s :
  match completion_of (runSalesSync_guarded w s) with
  | Normal _ => rejectsNullish (completion_of (runSalesSync_try w s)) = false
  | Throw thrown =>
      nullish thrown = false /\
      rejectsNullish (completion_of (runSalesSync_try w s)) = true
  end.
Proof.
  pose proof (runSalesSync_try_throws w s) as Hthrow.
  pose proof runSalesSync_catch_returns as Hcatch.
  pose proof runSalesSync_catch_throws as Hdies.
  unfold runSalesSync_guarded, try_catch, completion_of, state_of in *.
  destruct (runSalesSync_try w s) as [[[[]|m] s1] t1]; cbn [fst snd] in *.
  - reflexivity.
  - rewrite (Hthrow m eq_refl). specialize (Hcatch m s). specialize (Hdies m s).
    destruct (runSalesSync_catch (ENSRegistration := ENSRegistration) m s)
      as [[c s2] t2]. cbn [fst snd rejectsNullish] in *.
    destruct (nullish m).
    + destruct (Hdies eq_refl) as (msg & -> & _). split; reflexivity.
    + rewrite (Hcatch eq_refl). reflexivity.
Qed.

Lemma runSalesSync_completion w s :
  match completion_of (runSalesSync w s) with
  | Normal _ =>
      isRunning s && rejectsNullish (completion_of (runSalesSync_try w s))
        = false
  | Throw thrown =>
      nullish thrown = false /\
      isRunning s = true /\
      rejectsNullish (completion_of (runSalesSync_try w s)) = true
  end.
Proof.
  destruct (isRunning s) eqn:Hrun.
  - pose proof (runSalesSync_guarded_completion w s) as H.
    unfold runSalesSync, bind, this, call, completion_of in *.
    rewrite Hrun. cbn [negb fst snd andb] in *.
    destruct (runSalesSync_guarded w s) as [[[u|m] s1] t1]; cbn [fst snd] in *.
    + exact H.
    + destruct H as [H1 H2]. repeat split; assumption.
  - rewrite (runSalesSync_skips w s Hrun). reflexivity.
Qed.

Lemma runSalesSync_returns w s :
  rejectsNullish (completion_of (runSalesSync_try w s)) = false ->
  completion_of (runSalesSync w s) = Normal tt.
Proof.
  intros Hpolite. pose proof (runSalesSync_completion w s) as H.
  destruct (completion_of (runSalesSync w s)) as [[]|m]; [reflexivity|].
  destruct H as (_ & _ & H). congruence.
Qed.

(** ** The registration run *)

Lemma runRegistrationSync_guarded_frame w s :
  let r := runRegistrationSync_guarded w s in
  match completion_of r with
  | Normal _ =>
      rejectsNullish (completion_of (runRegistrationSync_try w s)) = false
  | Throw thrown =>
      nullish thrown = false /\
      rejectsNullish (completion_of (runRegistrationSync_try w s)) = true
  end /\
  state_of r = s /\
  stopInvoked (trace_of r) = false /\
  statePersisted (trace_of r) = false.
Proof.
  unfold_sched. split_cases; repeat split; reflexivity.
Qed.

Lemma runRegistrationSync_frame w s :
  let r := runRegistrationSync w s in
  match completion_of r with
  | Normal _ =>
      isRunning s
      && rejectsNullish (completion_of (runRegistrationSync_try w s)) = false
  | Throw thrown =>
      nullish thrown = false /\
      isRunning s = true /\
      rejectsNullish (completion_of (runRegistrationSync_try w s)) = true
  end /\
  state_of r = s /\
  stopInvoked (trace_of r) = false /\
  statePersisted (trace_of r) = false.
Proof.
  pose proof (runRegistrationSync_guarded_frame w s) as H.
  unfold runRegistrationSync, bind, this, call, completion_of, state_of,
    trace_of in *.
  destruct (isRunning s); cbn [negb fst snd andb] in *.
  - destruct (runRegistrationSync_guarded w s) as [[c s1] t1].
    cbn [fst snd] in *. destruct H as (Hc & -> & H1 & H2).
    split; [|repeat split; cbn; assumption].
    destruct c as [u|m]; [exact Hc|].
    destruct Hc as [Ha Hb]. repeat split; assumption.
  - repeat split; reflexivity.
Qed.

(** ** The manual trigger *)

Lemma triggerManualSync_runs_both (wSales wRegistrations : world) s :
  let r := triggerManualSync wSales wRegistrations s in
  (exists result,
     completion_of r = Normal result /\
     (sync_success result = true <->
      threw (completion_of (runSalesSync wSales s)) = false /\
      threw (completion_of (runRegistrationSync wRegistrations
                              (state_of (runSalesSync wSales s)))) = false)) /\
  state_of r = state_of (runSalesSync wSales s).
Proof.
  pose proof (runSalesSync_completion wSales s) as Hs.
  pose proof (runRegistrationSync_frame wRegistrations
                (state_of (runSalesSync wSales s))) as (Hr & Hrs & _).
  unfold triggerManualSync, try_catch, bind, call, ret, completion_of,
    state_of in *.
  cbn [fst snd] in *.
  destruct (runSalesSync wSales s) as [[[u|m] s1] t1]; cbn [fst snd] in *.
  - destruct (runRegistrationSync wRegistrations s1) as [[[u2|m2] s2] t2];
      cbn [fst snd threw] in *; subst s2.
    + split; [|reflexivity]. eexists. split; [reflexivity|].
      cbn. tauto.
    + destruct Hr as (Hm & _).
      destruct m2; try discriminate Hm; cbn;
        (split; [|reflexivity]); eexists; (split; [reflexivity|]); cbn;
        (split; [discriminate|intros [_ H]; discriminate H]).
  - destruct Hs as (Hm & _).
    destruct m; try discriminate Hm; cbn;
      (split; [|reflexivity]); eexists; (split; [reflexivity|]); cbn;
      (split; [discriminate|intros [H _]; discriminate H]).
Qed.

(** ** Restart from the database *)

Lemma initializeFromDatabase_cases w s :
  (getSystemState w "scheduler_enabled" = Normal (Some "true") /\
   state_of (initializeFromDatabase w s) =
     state_of (start (ENSRegistration := ENSRegistration) s)) \/
  (getSystemState w "scheduler_enabled" <> Normal (Some "true") /\
   state_of (initializeFromDatabase w s) = s).
Proof.
  unfold initializeFromDatabase, try_catch, bind, await, call, state_of.
  destruct (getSystemState w "scheduler_enabled") as [[v|]|m]; cbn [fst snd].
  - destruct (String.eqb_spec v "true") as [->|Hv].
    + left. split; [reflexivity|].
      destruct (start (ENSRegistration := ENSRegistration) s) as [[[u|m] s1] t1];
        [reflexivity|].
      destruct m; reflexivity.
    + right. split; [congruence|reflexivity].
  - right. split; [discriminate|reflexivity].
  - right. split; [discriminate|]. destruct m; reflexivity.
Qed.

(** ** What an operation does to the schedule *)

Lemma sameSchedule_refl s : sameSchedule s s.
Proof. repeat split. Qed.

Lemma runSalesSync_guarded_schedule w s :
  sameSchedule s (state_of (runSalesSync_guarded w s)) \/
  scheduleStopped s (state_of (runSalesSync_guarded w s)).
Proof.
  destruct (runSalesSync_guarded_cases w s) as [[Hok ->]|[m [Hm ->]]].
  - destruct (runSalesSync_try_completes w s Hok) as (r & p & _ & -> & _).
    left. repeat split.
  - pose proof (runSalesSync_catch_fields m s) as (_ & _ & H).
    destruct (nullish m); [left; apply H|].
    destruct H as [_ H].
    destruct (maxConsecutiveErrors s <=? consecutiveErrors s + 1);
      [right|left]; exact H.
Qed.

Lemma runSalesSync_schedule w s :
  sameSchedule s (state_of (runSalesSync w s)) \/
  scheduleStopped s (state_of (runSalesSync w s)).
Proof.
  destruct (isRunning s) eqn:Hrun.
  - rewrite (runSalesSync_enters w s Hrun). apply runSalesSync_guarded_schedule.
  - rewrite (runSalesSync_skips w s Hrun). left. apply sameSchedule_refl.
Qed.

(** Every operation keeps the schedule, takes it down as [stop] does, puts
    up a fresh one, or takes it down as [forceStop] does. *)
Lemma step_schedule o s :
  maxConsecutiveErrors (step o s) = maxConsecutiveErrors s /\
  (sameSchedule s (step o s) \/
   scheduleStopped s (step o s) \/
   (isRunning (step o s) = true /\ bothActive (step o s)) \/
   (isRunning (step o s) = false /\
    salesSyncJob (step o s) = None /\
    registrationSyncJob (step o s) = None)).
Proof.
  assert (Hstart : isRunning (step (CallStart : op) s) = true /\
                   bothActive (step (CallStart : op) s)).
  { pose proof (start_fields s) as (H1 & H2 & H3 & _).
    split; [exact H3|]. do 2 eexists.
    split; [exact H1|]. split; [exact H2|]. split; reflexivity. }
  assert (Hkeep : forall s', sameSchedule s s' ->
            maxConsecutiveErrors s' = maxConsecutiveErrors s).
  { intros s' (_ & _ & _ & H). exact H. }
  assert (Hdown : forall s', scheduleStopped s s' ->
            maxConsecutiveErrors s' = maxConsecutiveErrors s).
  { intros s' (_ & _ & _ & H). exact H. }
  destruct o as [ | | | |w|w1 w2|w|w|w|w]; cbn [step].
  - split; [apply start_fields|]. right. right. left. exact Hstart.
  - pose proof (stop_fields s) as (H1 & H2 & H3 & _ & _ & _ & H4).
    split; [exact H4|]. right. left. repeat split; assumption.
  - pose proof (forceStop_fields s) as (H1 & H2 & H3 & _ & _ & _ & H4).
    split; [exact H4|]. right. right. right. repeat split; assumption.
  - split; [reflexivity|]. left. repeat split.
  - destruct (initializeFromDatabase_cases w s) as [[_ ->]|[_ ->]].
    + split; [apply start_fields|]. right. right. left. exact Hstart.
    + split; [reflexivity|]. left. apply sameSchedule_refl.
  - destruct (triggerManualSync_runs_both w1 w2 s) as [_ ->].
    destruct (runSalesSync_schedule w1 s) as [H|H].
    + split; [apply Hkeep, H|]. left. exact H.
    + split; [apply Hdown, H|]. right. left. exact H.
  - destruct (runSalesSync_schedule w s) as [H|H].
    + split; [apply Hkeep, H|]. left. exact H.
    + split; [apply Hdown, H|]. right. left. exact H.
  - destruct (runRegistrationSync_frame w s) as (_ & -> & _).
    split; [reflexivity|]. left. apply sameSchedule_refl.
  - destruct (runSalesSync_guarded_schedule w s) as [H|H].
    + split; [apply Hkeep, H|]. left. exact H.
    + split; [apply Hdown, H|]. right. left. exact H.
  - destruct (runRegistrationSync_guarded_frame w s) as (_ & -> & _).
    split; [reflexivity|]. left. apply sameSchedule_refl.
Qed.

Lemma bothActive_handles s :
  bothActive s ->
  isSome (salesSyncJob s) || isSome (registrationSyncJob s) = true.
Proof.
  intros (js & jr & -> & _). reflexivity.
Qed.

Lemma not_bothActive_without_sales s :
  salesSyncJob s = None -> ~ bothActive s.
Proof.
  intros H (js & jr & H1 & _). congruence.
Qed.

Lemma sameSchedule_bothActive s s' :
  sameSchedule s s' -> (bothActive s' <-> bothActive s).
Proof.
  intros (H1 & H2 & _). unfold bothActive. rewrite H1, H2. reflexivity.
Qed.

Lemma step_handlesPaired o s :
  handlesPaired s -> handlesPaired (step o s).
Proof.
  intros Hs.
  destruct (step_schedule o s) as [_ [H|[H|[H|H]]]].
  - pose proof (sameSchedule_bothActive s _ H) as Hb.
    destruct H as (H1 & H2 & H3 & _). unfold handlesPaired.
    rewrite H1, H2, H3. destruct Hs as [[Hr Ha]|Hn].
    + left. split; [exact Hr|]. apply Hb, Ha.
    + right. exact Hn.
  - destruct H as (H1 & H2 & H3 & _). right.
    split; [|split; assumption]. rewrite H3.
    destruct Hs as [[_ Ha]|[Hr _]].
    + rewrite (bothActive_handles s Ha). reflexivity.
    + rewrite Hr. destruct (isSome _ || isSome _); reflexivity.
  - left. exact H.
  - right. exact H.
Qed.

Lemma reachable_handlesPaired s :
  reachable (ENSRegistration := ENSRegistration) s -> handlesPaired s.
Proof.
  induction 1 as [|o s _ IH].
  - right. repeat split.
  - apply step_handlesPaired, IH.
Qed.

Lemma reachable_threshold s :
  reachable (ENSRegistration := ENSRegistration) s ->
  maxConsecutiveErrors s = 5.
Proof.
  induction 1 as [|o s _ IH].
  - reflexivity.
  - destruct (step_schedule o s) as [-> _]. exact IH.
Qed.

(** ** Dates and projections *)

(** Moving the minutes field of a local time by [k] moves it by [k]
    minutes, whatever the seconds, the hour and the day are. *)
Lemma MakeDate_minutes u k :
  JSDate.MakeDate (JSDate.Day u)
    (JSDate.MakeTime (JSDate.HourFromTime u) (JSDate.MinFromTime u + k)
       (JSDate.SecFromTime u) (JSDate.msFromTime u)) =
  u + k * JSDate.msPerMinute.
Proof.
  unfold JSDate.MakeDate, JSDate.MakeTime, JSDate.Day, JSDate.HourFromTime,
    JSDate.MinFromTime, JSDate.SecFromTime, JSDate.msFromTime,
    JSDate.msPerDay, JSDate.msPerHour, JSDate.msPerMinute, JSDate.msPerSecond.
  replace (u / 86400000) with (u / 1000 / 60 / 60 / 24)
    by (rewrite !Z.div_div by lia; reflexivity).
  replace (u / 3600000) with (u / 1000 / 60 / 60)
    by (rewrite !Z.div_div by lia; reflexivity).
  replace (u / 60000) with (u / 1000 / 60)
    by (rewrite !Z.div_div by lia; reflexivity).
  Z.div_mod_to_equations. lia.
Qed.

(** When the offset of the host is the same at [t] and at the local time
    that the setter produces, [setMinutes(getMinutes() + k)] moves the time
    value by [k] minutes. *)
Lemma setMinutes_getMinutes tza t k offset :
  tza t true = offset ->
  tza (t + offset + k * JSDate.msPerMinute) false = offset ->
  JSDate.setMinutes tza t (JSDate.getMinutes tza t + k) =
  t + k * JSDate.msPerMinute.
Proof.
  intros Hat Hthen.
  unfold JSDate.setMinutes, JSDate.getMinutes, JSDate.UTC, JSDate.LocalTime.
  cbn zeta. rewrite MakeDate_minutes, Hat, Hthen. lia.
Qed.

Lemma for_push_length n i body : List.length (for_push n i body) = n.
Proof.
  revert i. induction n as [|n IH]; intros i; cbn; [reflexivity|].
  rewrite IH. reflexivity.
Qed.

Lemma for_push_nth n body : forall i k,
  (k < n)%nat ->
  nth_error (for_push n i body) k = Some (body (i + Z.of_nat k)).
Proof.
  induction n as [|n IH]; intros i k Hk; [lia|].
  destruct k as [|k]; cbn [for_push nth_error].
  - f_equal. f_equal. lia.
  - rewrite IH by lia. f_equal. f_equal. lia.
Qed.

(** ** The claims about introspection *)

(** C8: [getStatus().nextRunTime] is the minimum of [nextSalesRunTime] and
    [nextRegistrationRunTime] when both are present, the one that is present
    when only one is, and null when neither is; each of the two is the next
    firing time of its job, or null when the job is. *)
Theorem getStatus_nextRunTime_is_nearest h s :
  nextSalesRunTime (getStatus h s) = option_map (nextDate h) (salesSyncJob s) /\
  nextRegistrationRunTime (getStatus h s) =
    option_map (nextDate h) (registrationSyncJob s) /\
  nextRunTime (getStatus h s) =
    match nextSalesRunTime (getStatus h s),
          nextRegistrationRunTime (getStatus h s) with
    | Some sale, Some reg => Some (Z.min sale reg)
    | Some sale, None => Some sale
    | None, Some reg => Some reg
    | None, None => None
    end.
Proof.
  split; [reflexivity|]. split; [reflexivity|].
  unfold getStatus; cbn.
  destruct (salesSyncJob s) as [js|], (registrationSyncJob s) as [jr|]; cbn;
    try reflexivity.
  f_equal. destruct (Z.ltb_spec (nextDate h js) (nextDate h jr)); lia.
Qed.

(** On a host whose local time zone offset never changes: with both
    handles present, sales next firing at [T] and registrations next firing
    at [R], [getUpcomingRuns(3)] returns [T, T+5min, T+10min] for sales and
    [R, R+1min, R+2min] for registrations; for any [count], the [i]-th
    projection is the next firing time plus [i] periods, and there are
    [count] of them. *)
Theorem getUpcomingRuns_projects_periods h s salesJob registrationJob offset :
  (forall t isUTC, localTZA h t isUTC = offset) ->
  salesSyncJob s = Some salesJob ->
  registrationSyncJob s = Some registrationJob ->
  sales (getUpcomingRuns h s 3) =
    [nextDate h salesJob;
     nextDate h salesJob + 5 * JSDate.msPerMinute;
     nextDate h salesJob + 10 * JSDate.msPerMinute] /\
  registrations (getUpcomingRuns h s 3) =
    [nextDate h registrationJob;
     nextDate h registrationJob + 1 * JSDate.msPerMinute;
     nextDate h registrationJob + 2 * JSDate.msPerMinute] /\
  forall count,
    List.length (sales (getUpcomingRuns h s count)) = Z.to_nat count /\
    List.length (registrations (getUpcomingRuns h s count)) = Z.to_nat count /\
    forall i, 0 <= i < count ->
      nth_error (sales (getUpcomingRuns h s count)) (Z.to_nat i) =
        Some (nextDate h salesJob + i * (5 * JSDate.msPerMinute)) /\
      nth_error (registrations (getUpcomingRuns h s count)) (Z.to_nat i) =
        Some (nextDate h registrationJob + i * (1 * JSDate.msPerMinute)).
Proof.
  intros Hfixed Hs Hr. unfold getUpcomingRuns. rewrite Hs, Hr.
  cbn [sales registrations].
  assert (Hset : forall t k,
            JSDate.setMinutes (localTZA h) t
              (JSDate.getMinutes (localTZA h) t + k) =
            t + k * JSDate.msPerMinute).
  { intros t k. apply (setMinutes_getMinutes _ t k offset); apply Hfixed. }
  split; [|split].
  - change (Z.to_nat 3) with 3%nat. cbn [for_push].
    rewrite !Hset. unfold JSDate.msPerMinute.
    repeat f_equal; lia.
  - change (Z.to_nat 3) with 3%nat. cbn [for_push].
    rewrite !Hset. unfold JSDate.msPerMinute.
    repeat f_equal; lia.
  - intros count. rewrite !for_push_length.
    split; [reflexivity|]. split; [reflexivity|].
    intros i Hi. rewrite !for_push_nth by lia.
    rewrite !Hset. unfold JSDate.msPerMinute.
    split; f_equal; lia.
Qed.

(** C10: when either handle is null, [getUpcomingRuns(count)] returns two
    empty lists for every [count]; this is the case whenever a reachable
    scheduler is stopped. *)
Theorem getUpcomingRuns_empty_without_handles h s count :
  salesSyncJob s = None \/ registrationSyncJob s = None \/
  (reachable (ENSRegistration := ENSRegistration) s /\ isRunning s = false) ->
  getUpcomingRuns h s count = {| sales := []; registrations := [] |}.
Proof.
  intros H.
  assert (Hnull : salesSyncJob s = None \/ registrationSyncJob s = None).
  { destruct H as [H|[H|[Hreach Hstopped]]]; [left; exact H|right; exact H|].
    destruct (reachable_handlesPaired s Hreach) as [[Hr _]|(_ & Hn & _)].
    - congruence.
    - left. exact Hn. }
  unfold getUpcomingRuns.
  destruct Hnull as [-> | ->]; [reflexivity|].
  destruct (salesSyncJob s); reflexivity.
Qed.

(** ** The claims about the lifecycle *)

(** C6: a [stop()] right after a [stop()] does nothing: the object is the
    same, the flag is not flipped, nothing is persisted and only the line
    "Scheduler was not running" is logged.  A [stop()] persists the disabled
    state exactly when a handle existed, and that is when it clears the
    flag; otherwise it leaves the flag as it was. *)
Theorem stop_is_idempotent s :
  let once := stop (ENSRegistration := ENSRegistration) s in
  let twice := stop (ENSRegistration := ENSRegistration) (state_of once) in
  state_of twice = state_of once /\
  isRunning (state_of twice) = isRunning (state_of once) /\
  statePersisted (trace_of twice) = false /\
  trace_of twice = [Log info "Scheduler was not running"] /\
  (statePersisted (trace_of once) = true <->
   salesSyncJob s <> None \/ registrationSyncJob s <> None) /\
  isRunning (state_of once) =
    (if isSome (salesSyncJob s) || isSome (registrationSyncJob s)
     then false else isRunning s).
Proof.
  intros once twice. subst twice.
  pose proof (stop_fields s) as (H1 & H2 & H3 & _).
  fold once in H1, H2, H3.
  rewrite (stop_without_handles (state_of once) H1 H2).
  cbn [state_of trace_of fst snd].
  repeat split; try assumption; subst once.
  - rewrite stop_persists.
    destruct (salesSyncJob s), (registrationSyncJob s); cbn; intros H;
      solve [discriminate H | left; discriminate | right; discriminate].
  - rewrite stop_persists.
    destruct (salesSyncJob s), (registrationSyncJob s); cbn; intros [H|H];
      solve [reflexivity | exfalso; apply H; reflexivity].
Qed.

(** C3: the invariant "[isRunning] is true exactly when both handles are
    non-null and active" holds of the freshly constructed object and is
    preserved by every operation; [start] leaves both handles present and
    active, [stop] and [forceStop] leave both null. *)
Theorem running_iff_both_handles_active o s :
  handlesInvariant s ->
  handlesInvariant (step o s) /\
  handlesInvariant (initial (ProcessedSale := ProcessedSale)) /\
  bothActive (step (CallStart : op) s) /\
  (salesSyncJob (step (CallStop : op) s) = None /\
   registrationSyncJob (step (CallStop : op) s) = None) /\
  (salesSyncJob (step (CallForceStop : op) s) = None /\
   registrationSyncJob (step (CallForceStop : op) s) = None).
Proof.
  intros Hs. split; [|split; [|split; [|split]]].
  - destruct (step_schedule o s) as [_ [H|[H|[H|H]]]].
    + pose proof (sameSchedule_bothActive s _ H) as Hb.
      destruct H as (_ & _ & H3 & _). unfold handlesInvariant in *.
      rewrite H3, Hb. exact Hs.
    + destruct H as (H1 & _ & H3 & _). unfold handlesInvariant in *.
      split.
      * rewrite H3. intros Hr. exfalso.
        destruct (isSome (salesSyncJob s) || isSome (registrationSyncJob s))
          eqn:Hany; [discriminate Hr|].
        apply Hs in Hr. apply bothActive_handles in Hr. congruence.
      * intros Hb. exfalso.
        exact (not_bothActive_without_sales _ H1 Hb).
    + destruct H as [Hr Hb]. split; intros _; assumption.
    + destruct H as (Hr & H1 & _). split.
      * congruence.
      * intros Hb. exfalso. exact (not_bothActive_without_sales _ H1 Hb).
  - split.
    + discriminate.
    + intros Hb. exfalso.
      exact (not_bothActive_without_sales initial eq_refl Hb).
  - pose proof (start_fields s) as (H1 & H2 & _).
    do 2 eexists. split; [exact H1|]. split; [exact H2|]. split; reflexivity.
  - pose proof (stop_fields s) as (H1 & H2 & _). split; assumption.
  - pose proof (forceStop_fields s) as (H1 & H2 & _). split; assumption.
Qed.

(** C4: a registration run never changes the object, so neither
    [consecutiveErrors] nor [isRunning] moves, and it never calls [stop()];
    this holds whether or not the run ends in an exception, and for any
    number of runs in a row.  When the [try] block of the run does end in an
    exception, the failure is logged exactly when the value thrown is
    neither [null] nor [undefined]. *)
Theorem registration_failures_are_only_logged w s :
  (let r := runRegistrationSync w s in
   consecutiveErrors (state_of r) = consecutiveErrors s /\
   isRunning (state_of r) = isRunning s /\
   state_of r = s /\
   stopInvoked (trace_of r) = false) /\
  (forall ws : list world,
     consecutiveErrors (registrationRuns ws s) = consecutiveErrors s /\
     isRunning (registrationRuns ws s) = isRunning s) /\
  (isRunning s = true ->
   threw (completion_of (runRegistrationSync_try w s)) = true ->
   (In (Log error "Registration sync failed:")
       (trace_of (runRegistrationSync w s)) <->
    rejectsNullish (completion_of (runRegistrationSync_try w s)) = false)).
Proof.
  split; [|split].
  - pose proof (runRegistrationSync_frame w s) as (_ & H & Hstop & _).
    cbn zeta. rewrite H. repeat split. exact Hstop.
  - intros ws. induction ws as [|w' ws IH]; cbn [registrationRuns].
    + split; reflexivity.
    + destruct (runRegistrationSync_frame w' s) as (_ & -> & _). exact IH.
  - intros Hrun. unfold_sched. rewrite Hrun. cbn [negb].
    split_cases; intros H; try discriminate H;
      (split;
       [intros Hin; cbn; try reflexivity; cbn in Hin;
        repeat (destruct Hin as [Hin|Hin]; [try discriminate Hin|]);
        try contradiction
       |intros Hn; try discriminate Hn; cbn; tauto]).
Qed.

(** ** The claims about the sales run *)

(** C5: when the [try] block of a sales run completes, the run sets
    [consecutiveErrors] to 0 whatever it was before, [lastRunTime] to the
    start time of the run and [lastRunStats] to the fetch result of the run
    together with its posting outcomes, and changes nothing else.  This is
    so for a run that passes its guard and for one that resumes after other
    operations ran. *)
Theorem successful_sales_run_resets_counter w s :
  threw (completion_of (runSalesSync_try w s)) = false ->
  exists result autoPostResults,
    salesProcessing_processNewSales w = Normal result /\
    (if postingPipelineInvoked (trace_of (runSalesSync_try w s))
     then exists settings,
            getSettings w = Normal settings /\
            autoTweet_processNewSales w (processedSales result) settings =
              Normal autoPostResults
     else autoPostResults = []) /\
    let s' :=
      set_consecutiveErrors 0
        (set_lastRunStats (Some (SalesRunStats result autoPostResults))
           (set_lastRunTime (Some (startTime w)) s)) in
    consecutiveErrors s' = 0 /\
    lastRunTime s' = Some (startTime w) /\
    lastRunStats s' = Some (SalesRunStats result autoPostResults) /\
    state_of (runSalesSync_guarded w s) = s' /\
    (isRunning s = true -> state_of (runSalesSync w s) = s').
Proof.
  intros Hok.
  destruct (runSalesSync_try_completes w s Hok) as (r & p & Hf & Hs & Hp).
  exists r, p. split; [exact Hf|]. split; [exact Hp|]. cbn zeta.
  assert (Hguarded : state_of (runSalesSync_guarded w s) =
            set_consecutiveErrors 0
              (set_lastRunStats (Some (SalesRunStats r p))
                 (set_lastRunTime (Some (startTime w)) s))).
  { destruct (runSalesSync_guarded_cases w s) as [[_ ->]|[m [Hm _]]].
    - exact Hs.
    - rewrite Hm in Hok. discriminate Hok. }
  repeat split; try reflexivity.
  - exact Hguarded.
  - intros Hrun. rewrite (runSalesSync_enters w s Hrun). exact Hguarded.
Qed.

Lemma runSalesSync_catch_trace thrown s :
  stopInvoked (trace_of (runSalesSync_catch
                           (ENSRegistration := ENSRegistration) thrown s)) =
  negb (nullish thrown)
  && (maxConsecutiveErrors s <=? consecutiveErrors s + 1).
Proof.
  destruct s as [[js|] [jr|] r lt ls ce mx], thrown; unfold_sched; cbn;
    try destruct (mx <=? ce + 1); reflexivity.
Qed.

(** The [catch] block on a reachable object, for a thrown value other than
    [null] and [undefined]: the counter goes up by one, and at the threshold
    the scheduler is stopped. *)
Lemma runSalesSync_catch_trips thrown s :
  reachable (ENSRegistration := ENSRegistration) s ->
  nullish thrown = false ->
  let r := runSalesSync_catch (ENSRegistration := ENSRegistration) thrown s in
  consecutiveErrors (state_of r) = consecutiveErrors s + 1 /\
  maxConsecutiveErrors (state_of r) = 5 /\
  (5 <= consecutiveErrors (state_of r) ->
   stopInvoked (trace_of r) = true /\
   isRunning (state_of r) = false /\
   salesSyncJob (state_of r) = None /\
   registrationSyncJob (state_of r) = None).
Proof.
  intros Hreach Hvalue r. subst r.
  pose proof (reachable_threshold s Hreach) as Hmax.
  pose proof (reachable_handlesPaired s Hreach) as Hpaired.
  pose proof (runSalesSync_catch_fields thrown s) as (Hce & _ & Hsched).
  pose proof (runSalesSync_catch_trace thrown s) as Htrace.
  rewrite Hvalue in Hsched, Htrace. cbn [negb andb] in Htrace.
  destruct Hsched as [_ Hsched].
  rewrite Hce. split; [reflexivity|].
  destruct (Z.leb_spec (maxConsecutiveErrors s) (consecutiveErrors s + 1))
    as [Hle|Hgt].
  - destruct Hsched as (H1 & H2 & H3 & H4).
    split; [congruence|]. intros _.
    split; [exact Htrace|]. split; [|split; assumption].
    rewrite H3. destruct Hpaired as [[_ Hb]|[Hr _]].
    + rewrite (bothActive_handles s Hb). reflexivity.
    + rewrite Hr. destruct (isSome _ || isSome _); reflexivity.
  - destruct Hsched as (_ & _ & _ & H4).
    split; [congruence|]. intros Hfive. lia.
Qed.

Lemma failed_sales_run w s :
  reachable (ENSRegistration := ENSRegistration) s ->
  isRunning s = true ->
  threw (completion_of (runSalesSync_try w s)) = true ->
  let s' := state_of (runSalesSync w s) in
  consecutiveErrors s' = consecutiveErrors s + 1 /\
  (rejectsNullish (completion_of (runSalesSync_try w s)) = false ->
   5 <= consecutiveErrors s' ->
   isRunning s' = false /\
   salesSyncJob s' = None /\ registrationSyncJob s' = None).
Proof.
  intros Hreach Hrun Hfail. cbn zeta.
  rewrite (runSalesSync_enters w s Hrun).
  destruct (runSalesSync_guarded_cases w s) as [[Hok _]|[m [Hm ->]]].
  - congruence.
  - split; [apply runSalesSync_catch_fields|].
    rewrite Hm. cbn [rejectsNullish]. intros Hvalue.
    pose proof (runSalesSync_catch_trips m s Hreach Hvalue) as (_ & _ & H2).
    intros H. apply H2 in H. tauto.
Qed.

Lemma failed_sales_runs (ws : list world) : forall s,
  reachable (ENSRegistration := ENSRegistration) s ->
  allSalesRunsFail ws s ->
  consecutiveErrors (salesRuns ws s) =
    consecutiveErrors s + Z.of_nat (List.length ws) /\
  (Forall (fun w => forall s',
             rejectsNullish (completion_of (runSalesSync_try w s')) = false)
          ws ->
   ws <> [] -> 5 <= consecutiveErrors (salesRuns ws s) ->
   isRunning (salesRuns ws s) = false).
Proof.
  induction ws as [|w ws IH]; intros s Hreach Hall.
  - cbn. split; [lia|congruence].
  - destruct Hall as (Hrun & Hfail & Hrest).
    cbn [salesRuns].
    pose proof (failed_sales_run w s Hreach Hrun Hfail) as (Hce & Hstop).
    assert (Hreach' : reachable (ENSRegistration := ENSRegistration)
                        (state_of (runSalesSync w s))).
    { exact (reachable_step (FireSales w) s Hreach). }
    destruct (IH _ Hreach' Hrest) as (IHce & IHstop).
    split.
    + rewrite IHce, Hce. cbn [List.length]. lia.
    + intros Hvalues _ Hfive.
      inversion Hvalues as [|w0 ws0 Hw Hws]; subst.
      destruct ws as [|w' ws].
      * cbn [salesRuns] in *. apply Hstop; [apply Hw|exact Hfive].
      * apply IHstop; [exact Hws|discriminate|exact Hfive].
Qed.

(** Failures whose thrown value is neither [null] nor [undefined]: on every
    reachable object the failure handler of the sales run adds one to
    [consecutiveErrors] and, when the new value has reached
    [maxConsecutiveErrors] (which is 5), calls [stop()] within the handler,
    after which [isRunning] is false and both handles are gone; so does
    every sales run that fails with such a value; and five of them in a row,
    starting from a counter of 0, leave [isRunning] false and the counter at
    5. *)
Theorem sales_failures_trip_the_wire s :
  reachable (ENSRegistration := ENSRegistration) s ->
  (forall thrown,
     nullish thrown = false ->
     let r := runSalesSync_catch (ENSRegistration := ENSRegistration)
                thrown s in
     consecutiveErrors (state_of r) = consecutiveErrors s + 1 /\
     maxConsecutiveErrors (state_of r) = 5 /\
     (maxConsecutiveErrors (state_of r) <= consecutiveErrors (state_of r) ->
      stopInvoked (trace_of r) = true /\
      isRunning (state_of r) = false /\
      salesSyncJob (state_of r) = None /\
      registrationSyncJob (state_of r) = None)) /\
  (forall w,
     isRunning s = true ->
     threw (completion_of (runSalesSync_try w s)) = true ->
     rejectsNullish (completion_of (runSalesSync_try w s)) = false ->
     let s' := state_of (runSalesSync w s) in
     consecutiveErrors s' = consecutiveErrors s + 1 /\
     (5 <= consecutiveErrors s' -> isRunning s' = false)) /\
  (forall ws : list world,
     consecutiveErrors s = 0 ->
     List.length ws = 5%nat ->
     allSalesRunsFail ws s ->
     Forall (fun w => forall s',
               rejectsNullish (completion_of (runSalesSync_try w s')) = false)
            ws ->
     isRunning (salesRuns ws s) = false /\
     consecutiveErrors (salesRuns ws s) = 5).
Proof.
  intros Hreach. split; [|split].
  - intros thrown Hvalue r. subst r.
    pose proof (runSalesSync_catch_trips thrown s Hreach Hvalue)
      as (H1 & H2 & H3).
    split; [exact H1|]. split; [exact H2|].
    rewrite H2. exact H3.
  - intros w Hrun Hfail Hvalue.
    pose proof (failed_sales_run w s Hreach Hrun Hfail) as (H1 & H2).
    split; [exact H1|]. intros H. apply H2; assumption.
  - intros ws Hzero Hlen Hall Hvalues.
    pose proof (failed_sales_runs ws s Hreach Hall) as (Hce & Hstop).
    rewrite Hzero, Hlen in Hce. cbn in Hce.
    split; [|exact Hce].
    apply Hstop; [exact Hvalues| |lia].
    intros ->. discriminate Hlen.
Qed.

(** ** The double gate *)

Lemma records_present {A : Type} (l : list A) :
  (0 <? Z.of_nat (List.length l)) = true <-> l <> [].
Proof.
  destruct l as [|a l]; cbn [List.length].
  - split; [discriminate|congruence].
  - split; [discriminate|]. intros _. apply Z.ltb_lt. lia.
Qed.

Lemma runSalesSync_catch_does_not_post message s :
  postingPipelineInvoked
    (trace_of (runSalesSync_catch (ENSRegistration := ENSRegistration)
                 message s)) = false.
Proof.
  destruct s as [[js|] [jr|] r lt ls ce mx], message; unfold_sched; cbn;
    destruct (mx <=? ce + 1); reflexivity.
Qed.

(** The posting pipeline is called by the run only from its [try] block, and
    only by a run that passed the guard. *)
Lemma runSalesSync_posts_in_try w s :
  postingPipelineInvoked (trace_of (runSalesSync w s)) =
  isRunning s && postingPipelineInvoked (trace_of (runSalesSync_try w s)).
Proof.
  destruct (isRunning s) eqn:Hrun.
  - pose proof runSalesSync_catch_does_not_post as Hcatch.
    unfold runSalesSync, runSalesSync_guarded, try_catch, bind, this, call,
      trace_of, postingPipelineInvoked in *.
    rewrite Hrun. cbn [negb andb].
    destruct (runSalesSync_try w s) as [[[u|m] s1] t1]; cbn [fst snd].
    + reflexivity.
    + specialize (Hcatch m s1).
      destruct (runSalesSync_catch (ENSRegistration := ENSRegistration) m s1)
        as [[c s2] t2]. cbn [fst snd] in *.
      cbn [app existsb isAutoTweetProcessNewSales orb].
      rewrite existsb_app, Hcatch. apply orb_false_r.
  - rewrite (runSalesSync_skips w s Hrun). reflexivity.
Qed.

Lemma runSalesSync_try_posts w s :
  postingPipelineInvoked (trace_of (runSalesSync_try w s)) = true <->
  threw (refreshTimeCache w) = false /\
  exists result settings,
    salesProcessing_processNewSales w = Normal result /\
    0 < newSales result /\
    processedSales result <> [] /\
    getSettings w = Normal settings /\
    enabled settings = true /\
    isAutoPostingEnabled w = true.
Proof.
  unfold_sched.
  destruct (refreshTimeCache w) as [u|m]; cbn;
    [|split; [discriminate|intros [H _]; discriminate H]].
  destruct (salesProcessing_processNewSales w) as [result|m]; cbn;
    [|split; [discriminate|intros (_ & r & st & H & _); discriminate H]].
  destruct (Z.ltb_spec 0 (newSales result)) as [Hnew|Hnew]; cbn [andb];
    [|split_cases; (split; [discriminate|]);
      intros (_ & r & st & H & Hr & _); injection H as <-; lia].
  destruct (0 <? Z.of_nat (Datatypes.length (processedSales result)))
    eqn:Hrecords;
    [apply records_present in Hrecords
    |split_cases; (split; [discriminate|]);
     intros (_ & r & st & H & _ & Hr & _); injection H as <-;
     apply records_present in Hr; congruence].
  destruct (getSettings w) as [settings|m]; cbn;
    [|split; [discriminate|];
      intros (_ & r & st & _ & _ & _ & H & _); discriminate H].
  destruct (enabled settings) eqn:Henabled; cbn;
    [|split_cases; (split; [discriminate|]);
      intros (_ & r & st & _ & _ & _ & H & He & _);
      injection H as <-; congruence].
  destruct (isAutoPostingEnabled w) eqn:Hgate; cbn;
    [|split_cases; (split; [discriminate|]);
      intros (_ & r & st & _ & _ & _ & _ & _ & H); discriminate H].
  split_cases; (split; [intros _|reflexivity]);
    (split; [reflexivity|]); exists result, settings; repeat split;
    assumption.
Qed.

(** With the global gate closed and the earlier steps succeeding, the [try]
    block completes. *)
Lemma runSalesSync_try_gate_closed w s result settings :
  threw (refreshTimeCache w) = false ->
  salesProcessing_processNewSales w = Normal result ->
  getSettings w = Normal settings ->
  isAutoPostingEnabled w = false ->
  threw (completion_of (runSalesSync_try w s)) = false.
Proof.
  intros Hrefresh Hfetch Hsettings Hgate. unfold_sched.
  destruct (refreshTimeCache w) as [u|m]; [|discriminate Hrefresh].
  rewrite Hfetch, Hsettings, Hgate. split_cases; reflexivity.
Qed.

(** C2: the sales run calls the posting pipeline exactly when it passed its
    guard, the refresh and the fetch succeeded, the fetch result has
    [newSales > 0] and a non-empty list of records, the settings were
    fetched with [enabled] true, and the global gate [isAutoPostingEnabled]
    is true.  With the global gate false (and refresh, fetch and settings
    succeeding) the pipeline is not called, whatever [newSales] is, and
    [lastRunStats] is the fetch result with an empty list of outcomes. *)
Theorem posting_requires_both_gates w s :
  (postingPipelineInvoked (trace_of (runSalesSync w s)) = true <->
   isRunning s = true /\
   threw (refreshTimeCache w) = false /\
   exists result settings,
     salesProcessing_processNewSales w = Normal result /\
     0 < newSales result /\
     processedSales result <> [] /\
     getSettings w = Normal settings /\
     enabled settings = true /\
     isAutoPostingEnabled w = true) /\
  (forall result settings,
     isRunning s = true ->
     threw (refreshTimeCache w) = false ->
     salesProcessing_processNewSales w = Normal result ->
     getSettings w = Normal settings ->
     isAutoPostingEnabled w = false ->
     postingPipelineInvoked (trace_of (runSalesSync w s)) = false /\
     lastRunStats (state_of (runSalesSync w s)) =
       Some (SalesRunStats result [])).
Proof.
  assert (Hiff :
    postingPipelineInvoked (trace_of (runSalesSync w s)) = true <->
    isRunning s = true /\
    threw (refreshTimeCache w) = false /\
    exists result settings,
      salesProcessing_processNewSales w = Normal result /\
      0 < newSales result /\
      processedSales result <> [] /\
      getSettings w = Normal settings /\
      enabled settings = true /\
      isAutoPostingEnabled w = true).
  { rewrite runSalesSync_posts_in_try, andb_true_iff.
    rewrite (runSalesSync_try_posts w s). tauto. }
  split; [exact Hiff|].
  intros result settings Hrun Hrefresh Hfetch Hsettings Hgate.
  assert (Hquiet : postingPipelineInvoked (trace_of (runSalesSync w s)) = false).
  { destruct (postingPipelineInvoked (trace_of (runSalesSync w s)));
      [|reflexivity].
    destruct (proj1 Hiff eq_refl) as (_ & _ & r & st & _ & _ & _ & _ & _ & H).
    congruence. }
  split; [exact Hquiet|].
  pose proof (runSalesSync_try_gate_closed w s result settings
                Hrefresh Hfetch Hsettings Hgate) as Hok.
  rewrite (runSalesSync_enters w s Hrun).
  destruct (runSalesSync_guarded_cases w s) as [[_ ->]|[m [Hm _]]];
    [|rewrite Hm in Hok; discriminate Hok].
  destruct (runSalesSync_try_completes w s Hok) as (r & p & Hf & -> & Hp).
  rewrite runSalesSync_posts_in_try, Hrun in Hquiet. cbn [andb] in Hquiet.
  rewrite Hquiet in Hp. subst p.
  cbn. congruence.
Qed.

End Properties.

(** * The properties on the sample inputs *)

Module OnSamples.

Import Sample.

Lemma started_reachable :
  reachable (ENSRegistration := Registration) started.
Proof.
  exact (reachable_step (CallStart : Op Sale Registration) initial
           reachable_initial).
Qed.

Lemma nearThreshold_reachable :
  reachable (ENSRegistration := Registration) nearThreshold.
Proof.
  exact (reachable_step (FireSales outage) _
          (reachable_step (FireSales outage) _
            (reachable_step (FireSales outage) _
              (reachable_step (FireSales outage) _ started_reachable)))).
Qed.

Lemma started_invariant : handlesInvariant started.
Proof.
  split; intros _; [|reflexivity].
  do 2 eexists. repeat split; reflexivity.
Qed.

(** With the gate open the pipeline receives exactly the fetched records. *)
Example gate_open_posts_the_fetched_records :
  In (AutoTweetProcessNewSales ["a.eth"; "b.eth"; "c.eth"]
        (mkSettings true true))
     (trace_of (runSalesSync gateOpen started)) /\
  lastRunStats (state_of (runSalesSync gateOpen started)) =
    Some (SalesRunStats threeSales
            [mkPostResult true false; mkPostResult true false;
             mkPostResult true false]).
Proof.
  split; [vm_compute; tauto|reflexivity].
Qed.

(** A stopped scheduler skips both runs. *)
Example stopped_scheduler_skips_runs :
  runSalesSync gateOpen (initial (ProcessedSale := Sale)) =
    (Normal tt, initial,
     [Log debug "Skipping sales sync - scheduler is stopped"]) /\
  runRegistrationSync gateOpen (initial (ProcessedSale := Sale)) =
    (Normal tt, initial,
     [Log debug "Skipping registration sync - scheduler is stopped"]).
Proof.
  split; reflexivity.
Qed.

(** Five failed runs on a started scheduler. *)
Lemma sales_failures_trip_the_wire_witness :
  allSalesRunsFail [outage; outage; outage; outage; outage] started /\
  isRunning (salesRuns [outage; outage; outage; outage; outage] started)
    = false /\
  consecutiveErrors
    (salesRuns [outage; outage; outage; outage; outage] started) = 5.
Proof.
  assert (Hall : allSalesRunsFail [outage; outage; outage; outage; outage]
                   started).
  { vm_compute. repeat split. }
  split; [exact Hall|].
  apply (proj2 (proj2 (sales_failures_trip_the_wire started started_reachable))).
  - reflexivity.
  - reflexivity.
  - exact Hall.
  - repeat constructor.
Defined.

(** Three new sales, feature flag on, global gate off. *)
Lemma posting_requires_both_gates_witness :
  postingPipelineInvoked (trace_of (runSalesSync gateClosed started)) = false /\
  lastRunStats (state_of (runSalesSync gateClosed started)) =
    Some (SalesRunStats threeSales []).
Proof.
  apply (proj2 (posting_requires_both_gates gateClosed started)
           threeSales (mkSettings true true)); reflexivity.
Defined.

Lemma running_iff_both_handles_active_witness :
  handlesInvariant started /\
  handlesInvariant (step (FireSales outage) nearThreshold).
Proof.
  split; [exact started_invariant|].
  assert (Hnear : handlesInvariant nearThreshold).
  { split; intros _; [|reflexivity].
    do 2 eexists. repeat split; reflexivity. }
  exact (proj1 (running_iff_both_handles_active
                  (FireSales outage) nearThreshold Hnear)).
Defined.

Lemma registration_failures_are_only_logged_witness :
  threw (completion_of (runRegistrationSync_try outage nearThreshold)) = true /\
  In (Log error "Registration sync failed:")
     (trace_of (runRegistrationSync outage nearThreshold)) /\
  consecutiveErrors (state_of (runRegistrationSync outage nearThreshold)) = 4 /\
  isRunning (state_of (runRegistrationSync outage nearThreshold)) = true.
Proof.
  pose proof (registration_failures_are_only_logged outage nearThreshold)
    as (Hframe & _ & Hlogged).
  split; [reflexivity|].
  split; [apply (proj2 (Hlogged eq_refl eq_refl)); reflexivity|].
  destruct Hframe as (Hce & Hrun & _).
  split; [rewrite Hce|rewrite Hrun]; reflexivity.
Defined.

(** A successful run after four failures. *)
Lemma successful_sales_run_resets_counter_witness :
  consecutiveErrors nearThreshold = 4 /\
  isRunning nearThreshold = true /\
  threw (completion_of (runSalesSync_try gateOpen nearThreshold)) = false /\
  consecutiveErrors (state_of (runSalesSync gateOpen nearThreshold)) = 0 /\
  lastRunTime (state_of (runSalesSync gateOpen nearThreshold)) =
    Some (startTime gateOpen).
Proof.
  split; [reflexivity|]. split; [reflexivity|]. split; [reflexivity|].
  destruct (successful_sales_run_resets_counter gateOpen nearThreshold eq_refl)
    as (r & p & _ & _ & H0 & Ht & _ & _ & Hrun).
  rewrite (Hrun eq_refl). split; [exact H0|exact Ht].
Defined.

Lemma getUpcomingRuns_projects_periods_witness :
  sales (getUpcomingRuns host started 3) =
    [1767225900000; 1767226200000; 1767226500000] /\
  registrations (getUpcomingRuns host started 3) =
    [1767225660000; 1767225720000; 1767225780000].
Proof.
  pose proof (getUpcomingRuns_projects_periods host started
                (mkCronJob "0 */5 * * * *" SalesTask "America/New_York" true)
                (mkCronJob "0 * * * * *" RegistrationTask "America/New_York"
                   true)
                (-18000000) (fun _ _ => eq_refl) eq_refl eq_refl)
    as (Hs & Hr & _).
  split; [exact Hs|exact Hr].
Defined.

Lemma getUpcomingRuns_empty_without_handles_witness :
  getUpcomingRuns host (initial (ProcessedSale := Sale)) 3 =
    {| sales := []; registrations := [] |}.
Proof.
  apply (getUpcomingRuns_empty_without_handles (ENSRegistration := Registration)).
  left. reflexivity.
Defined.

(** C7, at an input where it fails: the scheduler is running with four
    failed sales runs on record and the time service is down.  The manual
    trigger resolves to [{ success: true, ... }] although its sales run
    failed, and it has stopped and discarded both schedule handles, which
    were present and active before the call; the registration run that
    follows finds the scheduler stopped and is skipped. *)
Theorem manual_sync_takes_the_schedule_down :
  let before := nearThreshold in
  let r := triggerManualSync outage outage before in
  reachable (ENSRegistration := Registration) before /\
  bothActive before /\
  isRunning before = true /\
  threw (completion_of (runSalesSync_try outage before)) = true /\
  completion_of r =
    Normal (mkManualSyncResult true
              (Some "Both sales and registration sync completed") None) /\
  salesSyncJob (state_of r) = None /\
  registrationSyncJob (state_of r) = None /\
  isRunning (state_of r) = false /\
  consecutiveErrors (state_of r) = 5 /\
  In (CronStop SalesTask) (trace_of r) /\
  In (CronStop RegistrationTask) (trace_of r) /\
  In (Log debug "Skipping registration sync - scheduler is stopped")
     (trace_of r).
Proof.
  cbn zeta. split; [exact nearThreshold_reachable|].
  split; [do 2 eexists; repeat split; reflexivity|].
  repeat split; try reflexivity; vm_compute; tauto.
Qed.

(** C1, at an input where it fails: the scheduler is running with four
    failed sales runs on record, and the time service rejects with
    [undefined].  The sales run fails; its failure handler adds one to
    [consecutiveErrors], which thereby reaches [maxConsecutiveErrors], and
    then fails itself on [error.message], before the threshold is looked at:
    [stop()] is not called, [isRunning] stays true, both handles stay in
    place and active, and the run ends in a [TypeError].  Five such failures
    in a row on a freshly started scheduler, whose counter is 0, leave it
    running with a counter of 5, and it is reported unhealthy. *)
Theorem silent_failures_pass_the_threshold :
  let before := nearThreshold in
  let r := runSalesSync EdgeSample.silentOutage before in
  let five :=
    [EdgeSample.silentOutage; EdgeSample.silentOutage;
     EdgeSample.silentOutage; EdgeSample.silentOutage;
     EdgeSample.silentOutage] in
  reachable (ENSRegistration := Registration) before /\
  isRunning before = true /\
  consecutiveErrors before = 4 /\
  completion_of (runSalesSync_try EdgeSample.silentOutage before) =
    Throw UndefinedValue /\
  consecutiveErrors (state_of r) = 5 /\
  maxConsecutiveErrors (state_of r) = 5 /\
  stopInvoked (trace_of r) = false /\
  isRunning (state_of r) = true /\
  bothActive (state_of r) /\
  completion_of r =
    Throw (WithMessage
             "Cannot read properties of undefined (reading 'message')") /\
  consecutiveErrors started = 0 /\
  allSalesRunsFail five started /\
  isRunning (salesRuns five started) = true /\
  consecutiveErrors (salesRuns five started) = 5 /\
  isHealthy (salesRuns five started) = false.
Proof.
  cbn zeta. split; [exact nearThreshold_reachable|].
  do 7 (split; [reflexivity|]).
  split; [do 2 eexists; repeat split; reflexivity|].
  do 2 (split; [reflexivity|]).
  split; [vm_compute; repeat split|].
  repeat split; reflexivity.
Qed.

(** C9, at an input where it fails: the host is in [America/New_York] in
    the night of 2026-11-01, when the clocks go back from 02:00 to 01:00,
    and both handles are present.  With the sales job firing next at
    [T] = 05:55:00Z (01:55 local), [getUpcomingRuns(3)] returns
    [T, T+65min, T+70min] for sales: [setMinutes] moves the local clock
    reading to 02:00 and 02:05, which lie an hour further on.  With the
    sales job firing next at [T] = 06:30:00Z and the registration job at
    [R] = 06:26:00Z, inside the repeated hour, it returns
    [T-60min, T-55min, T-50min] and [R-60min, R-59min, R-58min]: the local
    clock reading is taken for its first occurrence, so even the first
    projection is not the next firing time. *)
Theorem getUpcomingRuns_when_the_clocks_go_back :
  bothActive started /\
  nextSalesRunTime (getStatus EdgeSample.beforeFallBack started) =
    Some 1793512500000 /\
  sales (getUpcomingRuns EdgeSample.beforeFallBack started 3) =
    [1793512500000;
     1793512500000 + 65 * JSDate.msPerMinute;
     1793512500000 + 70 * JSDate.msPerMinute] /\
  nextSalesRunTime (getStatus EdgeSample.repeatedHour started) =
    Some 1793514600000 /\
  nextRegistrationRunTime (getStatus EdgeSample.repeatedHour started) =
    Some 1793514360000 /\
  sales (getUpcomingRuns EdgeSample.repeatedHour started 3) =
    [1793514600000 - 60 * JSDate.msPerMinute;
     1793514600000 - 55 * JSDate.msPerMinute;
     1793514600000 - 50 * JSDate.msPerMinute] /\
  registrations (getUpcomingRuns EdgeSample.repeatedHour started 3) =
    [1793514360000 - 60 * JSDate.msPerMinute;
     1793514360000 - 59 * JSDate.msPerMinute;
     1793514360000 - 58 * JSDate.msPerMinute].
Proof.
  split; [do 2 eexists; repeat split; reflexivity|].
  repeat split; vm_compute; reflexivity.
Qed.

End OnSamples.
(** * Further properties of the scheduler *)

Section MoreProperties.

Context {ProcessedSale ENSRegistration : Type}.

Local Abbreviation Service := (SchedulerService ProcessedSale).
Local Abbreviation world := (World ProcessedSale ENSRegistration).
Local Abbreviation op := (Op ProcessedSale ENSRegistration).
Local Abbreviation trace := (list (Effect ProcessedSale ENSRegistration)).

Implicit Types (s : Service) (w : world) (o : op) (tr : trace) (t : Task).

Ltac unfold_methods :=
  unfold perform, triggerManualSync, initializeFromDatabase, runSalesSync,
    runRegistrationSync, runSalesSync_guarded, runRegistrationSync_guarded,
    runSalesSync_try, runSalesSync_catch, runRegistrationSync_try, start,
    stop, forceStop, resetErrorCounter, saveSchedulerState, error_message,
    throw, when, await, call, assign, this, try_catch, bind, ret, state_of,
    trace_of, completion_of in *.

Ltac case_split :=
  repeat
    (cbn in *;
     match goal with
     | |- context [match ?x with _ => _ end] =>
         lazymatch x with
         | context [match _ with _ => _ end] => fail
         | _ => destruct x eqn:?
         end
     end).

Lemma perform_state o s : state_of (perform o s) = step o s.
Proof.
  destruct o; try reflexivity.
  cbn [perform step]. unfold bind, ret, state_of.
  destruct (triggerManualSync wSales wRegistrations s) as [[[r|m] s1] t1];
    cbn; reflexivity.
Qed.

(** ** The shape of the traces *)

Lemma runSalesSync_guarded_trace w s :
  trace_of (runSalesSync_guarded w s) =
  trace_of (runSalesSync_try w s) ++
  match completion_of (runSalesSync_try w s) with
  | Normal _ => []
  | Throw thrown =>
      trace_of (runSalesSync_catch (ENSRegistration := ENSRegistration)
                  thrown s)
  end.
Proof.
  pose proof (runSalesSync_try_throws w s) as Hthrow.
  unfold runSalesSync_guarded, try_catch, trace_of, state_of, completion_of
    in *.
  destruct (runSalesSync_try w s) as [[[u|m] s1] t1]; cbn [fst snd] in *.
  - symmetry. apply app_nil_r.
  - rewrite (Hthrow m eq_refl).
    destruct (runSalesSync_catch (ENSRegistration := ENSRegistration) m s)
      as [[c s2] t2]. reflexivity.
Qed.

Lemma runSalesSync_trace w s :
  trace_of (runSalesSync w s) =
  if isRunning s
  then Log info "Starting sales sync..." :: trace_of (runSalesSync_guarded w s)
  else [Log debug "Skipping sales sync - scheduler is stopped"].
Proof.
  unfold runSalesSync, bind, this, call, trace_of.
  destruct (isRunning s); cbn [negb fst snd]; [|reflexivity].
  destruct (runSalesSync_guarded w s) as [[c s1] t1]. reflexivity.
Qed.

Lemma runRegistrationSync_trace w s :
  trace_of (runRegistrationSync w s) =
  if isRunning s
  then Log info "Starting registration sync..."
         :: trace_of (runRegistrationSync_guarded w s)
  else [Log debug "Skipping registration sync - scheduler is stopped"].
Proof.
  unfold runRegistrationSync, bind, this, call, trace_of.
  destruct (isRunning s); cbn [negb fst snd]; [|reflexivity].
  destruct (runRegistrationSync_guarded w s) as [[c s1] t1]. reflexivity.
Qed.

Lemma triggerManualSync_trace (w1 w2 : world) s :
  trace_of (triggerManualSync w1 w2 s) =
  Log info
    "Manual sync triggered - running both sales and registration processing"
  :: trace_of (runSalesSync w1 s) ++
     (if threw (completion_of (runSalesSync w1 s))
      then [Log error "Manual sync failed:"]
      else
        trace_of (runRegistrationSync w2 (state_of (runSalesSync w1 s))) ++
        (if threw (completion_of
                     (runRegistrationSync w2 (state_of (runSalesSync w1 s))))
         then [Log error "Manual sync failed:"]
         else [])).
Proof.
  pose proof (runSalesSync_completion w1 s) as Hs.
  pose proof (runRegistrationSync_frame w2
                (state_of (runSalesSync w1 s))) as (Hr & _).
  unfold triggerManualSync, try_catch, bind, call, ret, completion_of,
    state_of, trace_of in *.
  cbn [fst snd] in *.
  destruct (runSalesSync w1 s) as [[[u|m] s1] t1]; cbn [fst snd threw] in *.
  - destruct (runRegistrationSync w2 s1) as [[[u2|m2] s2] t2];
      cbn [fst snd threw] in *.
    + cbn. rewrite !app_nil_r. reflexivity.
    + destruct Hr as (Hm & _).
      destruct m2; try discriminate Hm; cbn; rewrite <- ?app_assoc;
        reflexivity.
  - destruct Hs as (Hm & _).
    destruct m; try discriminate Hm; cbn; reflexivity.
Qed.

Lemma initializeFromDatabase_trace w s :
  trace_of (initializeFromDatabase w s) =
  GetSystemState "scheduler_enabled" ::
  match getSystemState w "scheduler_enabled" with
  | Normal (Some v) =>
      if String.eqb v "true"
      then Log info "Scheduler was enabled, starting automatically..."
             :: trace_of (start (ENSRegistration := ENSRegistration) s)
      else [Log info
              "Scheduler is disabled by default - use dashboard to start"]
  | Normal None =>
      [Log info "Scheduler is disabled by default - use dashboard to start"]
  | Throw thrown =>
      if nullish thrown then []
      else
        [Log warn "Could not load scheduler state from database:";
         Log info "Scheduler will remain stopped until manually started"]
  end.
Proof.
  assert (Hstart : completion_of
            (start (ENSRegistration := ENSRegistration) s) = Normal tt).
  { destruct s as [[js|] [jr|] r lt ls ce mx]; reflexivity. }
  unfold initializeFromDatabase, try_catch, bind, await, call, trace_of,
    completion_of in *.
  destruct (getSystemState w "scheduler_enabled") as [[v|]|m]; cbn [fst snd];
    try reflexivity.
  - destruct (String.eqb v "true"); [|reflexivity].
    destruct (start (ENSRegistration := ENSRegistration) s) as [[c s1] t1].
    cbn [fst snd] in *. subst c. reflexivity.
  - destruct m; reflexivity.
Qed.

(** ** No method throws *)

Lemma start_returns s :
  completion_of (start (ENSRegistration := ENSRegistration) s) = Normal tt.
Proof.
  destruct s as [[js|] [jr|] r lt ls ce mx]; reflexivity.
Qed.

Lemma forceStop_returns s :
  completion_of (forceStop (ENSRegistration := ENSRegistration) s) = Normal tt.
Proof.
  destruct s as [[js|] [jr|] r lt ls ce mx]; reflexivity.
Qed.

Ltac thrown_by_world :=
  lazymatch goal with
  | Heq : ?c = Throw ?e |- nullish ?e = false =>
      let H := fresh in
      assert (H : rejectsNullish c = false)
        by (first [assumption
                  | match goal with Hf : forall _, _ |- _ => apply Hf end]);
      rewrite Heq in H; exact H
  end.

Lemma runSalesSync_try_rejection w s :
  neverRejectsNullish w ->
  rejectsNullish (completion_of (runSalesSync_try w s)) = false.
Proof.
  intros (H1 & H2 & H3 & H4 & H5 & H6 & H7).
  unfold runSalesSync_try, when, await, call, assign, bind, ret,
    completion_of.
  case_split; cbn; try reflexivity; first [assumption | thrown_by_world].
Qed.

Lemma runRegistrationSync_try_rejection w s :
  neverRejectsNullish w ->
  rejectsNullish (completion_of (runRegistrationSync_try w s)) = false.
Proof.
  intros (H1 & H2 & H3 & H4 & H5 & H6 & H7).
  unfold runRegistrationSync_try, when, await, call, assign, bind, ret,
    completion_of.
  case_split; cbn; try reflexivity; first [assumption | thrown_by_world].
Qed.

Lemma runSalesSync_guarded_returns w s :
  rejectsNullish (completion_of (runSalesSync_try w s)) = false ->
  completion_of (runSalesSync_guarded w s) = Normal tt.
Proof.
  intros Hvalue. pose proof (runSalesSync_guarded_completion w s) as H.
  destruct (completion_of (runSalesSync_guarded w s)) as [[]|m];
    [reflexivity|].
  destruct H as (_ & H). congruence.
Qed.

Lemma runRegistrationSync_returns w s :
  rejectsNullish (completion_of (runRegistrationSync_try w s)) = false ->
  completion_of (runRegistrationSync w s) = Normal tt /\
  completion_of (runRegistrationSync_guarded w s) = Normal tt.
Proof.
  intros Hvalue.
  pose proof (runRegistrationSync_frame w s) as (H & _).
  pose proof (runRegistrationSync_guarded_frame w s) as (H' & _).
  cbn zeta in *. split.
  - destruct (completion_of (runRegistrationSync w s)) as [[]|m];
      [reflexivity|].
    destruct H as (_ & _ & H). congruence.
  - destruct (completion_of (runRegistrationSync_guarded w s)) as [[]|m];
      [reflexivity|].
    destruct H' as (_ & H'). congruence.
Qed.

Lemma initializeFromDatabase_completion w s :
  match completion_of (initializeFromDatabase w s) with
  | Normal _ => rejectsNullish (getSystemState w "scheduler_enabled") = false
  | Throw thrown =>
      nullish thrown = false /\
      rejectsNullish (getSystemState w "scheduler_enabled") = true
  end.
Proof.
  pose proof (start_returns s) as Hstart.
  unfold initializeFromDatabase, try_catch, bind, await, call, completion_of
    in *.
  destruct (getSystemState w "scheduler_enabled") as [[v|]|m]; cbn [fst snd];
    try reflexivity.
  - destruct (String.eqb v "true"); [|reflexivity].
    destruct (start (ENSRegistration := ENSRegistration) s) as [[c s1] t1].
    cbn [fst snd] in *. subst c. reflexivity.
  - destruct m; cbn; try reflexivity; split; reflexivity.
Qed.

Lemma triggerManualSync_returns (w1 w2 : world) s :
  completion_of (bind (triggerManualSync w1 w2) (fun _ => ret tt) s) =
  Normal tt.
Proof.
  pose proof (triggerManualSync_runs_both w1 w2 s) as [(r & H & _) _].
  unfold bind, ret, completion_of in *.
  destruct (triggerManualSync w1 w2 s) as [[c s1] t1]. cbn [fst snd] in *.
  subst c. reflexivity.
Qed.

(** X1: an operation of the scheduler lets an exception escape only when a
    collaborator rejects with [null] or [undefined]: then the [catch] block
    that reads [error.message] fails with a [TypeError].  When no
    collaborator does so, every operation completes normally, whatever else
    the collaborators return or throw.  [start], [stop], [forceStop],
    [resetErrorCounter] and [triggerManualSync] never throw at all; the
    detached tail of [saveSchedulerState] completes normally unless the
    database rejects with [null] or [undefined]. *)
Theorem operations_throw_only_on_nullish_rejections o s :
  (noNullishRejection o -> completion_of (perform o s) = Normal tt) /\
  (forall thrown,
     completion_of (perform o s) = Throw thrown ->
     exists message, thrown = WithMessage message) /\
  match o with
  | CallStart | CallStop | CallForceStop | CallResetErrorCounter
  | CallTriggerManualSync _ _ => completion_of (perform o s) = Normal tt
  | _ => True
  end /\
  (forall answer,
     rejectsNullish answer = false ->
     completion_of
       (saveSchedulerState_settled (ProcessedSale := ProcessedSale)
          (ENSRegistration := ENSRegistration) answer s) = Normal tt).
Proof.
  split; [|split; [|split]].
  - destruct o as [ | | | |w|w1 w2|w|w|w|w]; cbn [perform noNullishRejection];
      intros Hpolite.
    + apply start_returns.
    + apply stop_returns.
    + apply forceStop_returns.
    + reflexivity.
    + pose proof (initializeFromDatabase_completion w s) as H.
      destruct (completion_of (initializeFromDatabase w s)) as [[]|m];
        [reflexivity|].
      destruct H as (_ & H). destruct Hpolite as (Hdb & _).
      rewrite Hdb in H. discriminate H.
    + apply triggerManualSync_returns.
    + apply runSalesSync_returns, runSalesSync_try_rejection, Hpolite.
    + apply runRegistrationSync_returns, runRegistrationSync_try_rejection,
        Hpolite.
    + apply runSalesSync_guarded_returns, runSalesSync_try_rejection, Hpolite.
    + apply runRegistrationSync_returns, runRegistrationSync_try_rejection,
        Hpolite.
  - intros thrown Hthrown.
    assert (Hescape : forall w,
              completion_of (runSalesSync_guarded w s) = Throw thrown ->
              exists message, thrown = WithMessage message).
    { intros w H.
      pose proof (runSalesSync_try_throws w s) as Htry.
      unfold runSalesSync_guarded, try_catch, completion_of, state_of in *.
      destruct (runSalesSync_try w s) as [[[[]|m] s1] t1];
        cbn [fst snd] in *; [discriminate H|].
      rewrite (Htry m eq_refl) in H.
      destruct m.
      - pose proof (runSalesSync_catch_returns
                      (ENSRegistration := ENSRegistration)
                      (WithMessage message) s eq_refl) as Hc.
        unfold completion_of in Hc.
        destruct (runSalesSync_catch (ENSRegistration := ENSRegistration)
                    (WithMessage message) s) as [[c s2] t2].
        cbn [fst snd] in *. congruence.
      - pose proof (runSalesSync_catch_returns
                      (ENSRegistration := ENSRegistration)
                      WithoutMessage s eq_refl) as Hc.
        unfold completion_of in Hc.
        destruct (runSalesSync_catch (ENSRegistration := ENSRegistration)
                    WithoutMessage s) as [[c s2] t2].
        cbn [fst snd] in *. congruence.
      - cbn in H. injection H as <-. eexists. reflexivity.
      - cbn in H. injection H as <-. eexists. reflexivity. }
    assert (Hreg : forall w,
              completion_of (runRegistrationSync_guarded w s) = Throw thrown ->
              exists message, thrown = WithMessage message).
    { intros w. unfold_methods. case_split; intros H; try discriminate H;
        injection H as <-; eexists; reflexivity. }
    destruct o as [ | | | |w|w1 w2|w|w|w|w]; cbn [perform] in Hthrown.
    + rewrite start_returns in Hthrown. discriminate Hthrown.
    + rewrite stop_returns in Hthrown. discriminate Hthrown.
    + rewrite forceStop_returns in Hthrown. discriminate Hthrown.
    + discriminate Hthrown.
    + revert Hthrown. unfold initializeFromDatabase, try_catch, bind, await,
        call, completion_of.
      pose proof (start_returns s) as Hstart. unfold completion_of in Hstart.
      destruct (getSystemState w "scheduler_enabled") as [[v|]|m];
        cbn [fst snd]; try discriminate.
      * destruct (String.eqb v "true"); [|discriminate].
        destruct (start (ENSRegistration := ENSRegistration) s)
          as [[c s1] t1]. cbn [fst snd] in *. subst c. discriminate.
      * destruct m; cbn; intros H; try discriminate H; injection H as <-;
          eexists; reflexivity.
    + rewrite triggerManualSync_returns in Hthrown. discriminate Hthrown.
    + revert Hthrown. unfold runSalesSync, bind, this, call, completion_of.
      specialize (Hescape w). unfold completion_of in Hescape.
      destruct (isRunning s); cbn [negb fst snd]; [|discriminate].
      destruct (runSalesSync_guarded w s) as [[c s1] t1]. cbn [fst snd] in *.
      exact Hescape.
    + revert Hthrown. unfold runRegistrationSync, bind, this, call,
        completion_of.
      specialize (Hreg w). unfold completion_of in Hreg.
      destruct (isRunning s); cbn [negb fst snd]; [|discriminate].
      destruct (runRegistrationSync_guarded w s) as [[c s1] t1].
      cbn [fst snd] in *. exact Hreg.
    + apply (Hescape w Hthrown).
    + apply (Hreg w Hthrown).
  - destruct o as [ | | | |w|w1 w2|w|w|w|w]; cbn [perform]; try exact I.
    + apply start_returns.
    + apply stop_returns.
    + apply forceStop_returns.
    + reflexivity.
    + apply triggerManualSync_returns.
  - intros [u|m]; [reflexivity|].
    destruct m; cbn; try discriminate; reflexivity.
Qed.

(** ** Timers and handles *)

Lemma timersArmed_app t tr1 tr2 :
  timersArmed t (tr1 ++ tr2) = timersArmed t tr1 + timersArmed t tr2.
Proof.
  induction tr1 as [|e tr1 IH]; [reflexivity|].
  destruct e; cbn [app timersArmed]; rewrite IH; lia.
Qed.

Lemma stop_timers t s :
  handleHeld (jobOf t s) +
  timersArmed t (trace_of (stop (ENSRegistration := ENSRegistration) s)) =
  handleHeld (jobOf t (state_of (stop (ENSRegistration := ENSRegistration) s))).
Proof.
  destruct s as [[js|] [jr|] r lt ls ce mx], t; reflexivity.
Qed.

Lemma forceStop_timers t s :
  handleHeld (jobOf t s) +
  timersArmed t (trace_of (forceStop (ENSRegistration := ENSRegistration) s)) =
  handleHeld
    (jobOf t (state_of (forceStop (ENSRegistration := ENSRegistration) s))).
Proof.
  destruct s as [[js|] [jr|] r lt ls ce mx], t; reflexivity.
Qed.

Lemma start_timers t s :
  handleHeld (jobOf t s) +
  timersArmed t (trace_of (start (ENSRegistration := ENSRegistration) s)) =
  handleHeld (jobOf t (state_of (start (ENSRegistration := ENSRegistration) s))).
Proof.
  destruct s as [[js|] [jr|] r lt ls ce mx], t; reflexivity.
Qed.

Lemma runSalesSync_try_timers t w s :
  timersArmed t (trace_of (runSalesSync_try w s)) = 0.
Proof.
  unfold_methods. case_split; reflexivity.
Qed.

Lemma runSalesSync_catch_timers t message s :
  handleHeld (jobOf t s) +
  timersArmed t
    (trace_of (runSalesSync_catch (ENSRegistration := ENSRegistration)
                 message s)) =
  handleHeld
    (jobOf t (state_of (runSalesSync_catch
                          (ENSRegistration := ENSRegistration) message s))).
Proof.
  destruct s as [[js|] [jr|] r lt ls ce mx], t, message; unfold_methods;
    cbn; destruct (mx <=? ce + 1); reflexivity.
Qed.

Lemma runSalesSync_guarded_timers t w s :
  handleHeld (jobOf t s) + timersArmed t (trace_of (runSalesSync_guarded w s)) =
  handleHeld (jobOf t (state_of (runSalesSync_guarded w s))).
Proof.
  rewrite runSalesSync_guarded_trace, timersArmed_app, runSalesSync_try_timers.
  destruct (runSalesSync_guarded_cases w s) as [[Hok ->]|[m [Hm ->]]].
  - destruct (runSalesSync_try_completes w s Hok) as (r & p & _ & -> & _).
    destruct (completion_of (runSalesSync_try w s)); [|discriminate Hok].
    destruct t; cbn; lia.
  - rewrite Hm. rewrite <- (runSalesSync_catch_timers t m s). lia.
Qed.

Lemma runSalesSync_timers t w s :
  handleHeld (jobOf t s) + timersArmed t (trace_of (runSalesSync w s)) =
  handleHeld (jobOf t (state_of (runSalesSync w s))).
Proof.
  rewrite runSalesSync_trace. destruct (isRunning s) eqn:Hrun.
  - rewrite (runSalesSync_enters w s Hrun).
    rewrite <- (runSalesSync_guarded_timers t w s). reflexivity.
  - rewrite (runSalesSync_skips w s Hrun). cbn. lia.
Qed.

Lemma runRegistrationSync_guarded_timers t w s :
  timersArmed t (trace_of (runRegistrationSync_guarded w s)) = 0.
Proof.
  unfold_methods. case_split; reflexivity.
Qed.

Lemma runRegistrationSync_timers t w s :
  timersArmed t (trace_of (runRegistrationSync w s)) = 0.
Proof.
  rewrite runRegistrationSync_trace. destruct (isRunning s); [|reflexivity].
  cbn [timersArmed]. apply runRegistrationSync_guarded_timers.
Qed.

Lemma triggerManualSync_timers t (w1 w2 : world) s :
  timersArmed t (trace_of (triggerManualSync w1 w2 s)) =
  timersArmed t (trace_of (runSalesSync w1 s)).
Proof.
  rewrite triggerManualSync_trace. cbn [timersArmed].
  rewrite timersArmed_app.
  destruct (threw (completion_of (runSalesSync w1 s))); [cbn; lia|].
  rewrite timersArmed_app, runRegistrationSync_timers.
  destruct (threw _); cbn; lia.
Qed.

Lemma perform_timers t o s :
  handleHeld (jobOf t s) + timersArmed t (trace_of (perform o s)) =
  handleHeld (jobOf t (state_of (perform o s))).
Proof.
  destruct o as [ | | | |w|w1 w2|w|w|w|w]; cbn [perform].
  - apply start_timers.
  - apply stop_timers.
  - apply forceStop_timers.
  - destruct t; cbn; lia.
  - rewrite initializeFromDatabase_trace.
    destruct (initializeFromDatabase_cases w s) as [[Hv ->]|[Hv ->]].
    + rewrite Hv. cbn [String.eqb Ascii.eqb Bool.eqb andb timersArmed].
      change (String.eqb "true" "true") with true. cbn [timersArmed].
      apply start_timers.
    + destruct (getSystemState w "scheduler_enabled") as [[v|]|m];
        try (cbn; lia); [|destruct m; cbn; lia].
      destruct (String.eqb_spec v "true") as [->|Hne]; [congruence|].
      cbn; lia.
  - assert (Hs : state_of (bind (triggerManualSync w1 w2) (fun _ => ret tt) s)
                 = state_of (runSalesSync w1 s)).
    { rewrite <- (proj2 (triggerManualSync_runs_both w1 w2 s)).
      unfold bind, ret, state_of.
      destruct (triggerManualSync w1 w2 s) as [[[c|m] s1] t1]; reflexivity. }
    assert (Ht : trace_of (bind (triggerManualSync w1 w2) (fun _ => ret tt) s)
                 = trace_of (triggerManualSync w1 w2 s)).
    { unfold bind, ret, trace_of.
      destruct (triggerManualSync w1 w2 s) as [[[c|m] s1] t1]; cbn;
        [apply app_nil_r|reflexivity]. }
    rewrite Hs, Ht, triggerManualSync_timers.
    apply runSalesSync_timers.
  - apply runSalesSync_timers.
  - rewrite runRegistrationSync_timers.
    destruct (runRegistrationSync_frame w s) as (_ & -> & _). lia.
  - apply runSalesSync_guarded_timers.
  - rewrite runRegistrationSync_guarded_timers.
    destruct (runRegistrationSync_guarded_frame w s) as (_ & -> & _). lia.
Qed.

(** X2: over any sequence of operations from any object, the timers of each
    task that the cron library was told to start and not told to stop are
    exactly those of the handle the object still holds: a handle is never
    dropped without being stopped, and never replaced while armed.  From the
    constructed object, each task therefore has one armed timer when its
    handle is present and none otherwise. *)
Theorem armed_timers_match_handles (ops : list op) s t :
  handleHeld (jobOf t s) + timersArmed t (snd (history ops s)) =
    handleHeld (jobOf t (fst (history ops s))) /\
  timersArmed t (snd (history ops initial)) =
    (if isSome (jobOf t (fst (history ops initial))) then 1 else 0).
Proof.
  assert (Hgen : forall (l : list op) s0,
            handleHeld (jobOf t s0) + timersArmed t (snd (history l s0)) =
            handleHeld (jobOf t (fst (history l s0)))).
  { induction l as [|o l IH]; intros s0; cbn [history fst snd].
    - cbn. lia.
    - rewrite timersArmed_app, <- IH, <- (perform_timers t o s0). lia. }
  split; [apply Hgen|].
  specialize (Hgen ops (initial (ProcessedSale := ProcessedSale))).
  unfold handleHeld in Hgen at 2. rewrite <- Hgen.
  destruct t; cbn; lia.
Qed.

(** ** The persisted flag *)

Lemma persistedAfter_app before tr1 tr2 :
  persistedAfter before (tr1 ++ tr2) =
  persistedAfter (persistedAfter before tr1) tr2.
Proof.
  revert before. induction tr1 as [|e tr1 IH]; intros before; [reflexivity|].
  destruct e; cbn [app persistedAfter]; apply IH.
Qed.

Lemma stop_persisted before s :
  writesTheFlag before s
    (state_of (stop (ENSRegistration := ENSRegistration) s))
    (trace_of (stop (ENSRegistration := ENSRegistration) s)).
Proof.
  destruct s as [[js|] [jr|] r lt ls ce mx]; cbn;
    solve [right; reflexivity | left; split; reflexivity].
Qed.

Lemma runSalesSync_try_persisted before w s :
  persistedAfter before (trace_of (runSalesSync_try w s)) = before.
Proof.
  unfold_methods. case_split; reflexivity.
Qed.

Lemma runSalesSync_catch_persisted before message s :
  writesTheFlag before s
    (state_of (runSalesSync_catch (ENSRegistration := ENSRegistration)
                 message s))
    (trace_of (runSalesSync_catch (ENSRegistration := ENSRegistration)
                 message s)).
Proof.
  destruct s as [[js|] [jr|] r lt ls ce mx], message; unfold_methods; cbn;
    destruct (mx <=? ce + 1); cbn;
    solve [right; reflexivity | left; split; reflexivity].
Qed.

Lemma runSalesSync_guarded_persisted before w s :
  writesTheFlag before s (state_of (runSalesSync_guarded w s))
    (trace_of (runSalesSync_guarded w s)).
Proof.
  unfold writesTheFlag.
  rewrite runSalesSync_guarded_trace, persistedAfter_app,
    runSalesSync_try_persisted.
  destruct (runSalesSync_guarded_cases w s) as [[Hok ->]|[m [Hm ->]]].
  - destruct (runSalesSync_try_completes w s Hok) as (r & p & _ & -> & _).
    destruct (completion_of (runSalesSync_try w s)); [|discriminate Hok].
    left. split; reflexivity.
  - rewrite Hm. apply runSalesSync_catch_persisted.
Qed.

Lemma runSalesSync_persisted before w s :
  writesTheFlag before s (state_of (runSalesSync w s))
    (trace_of (runSalesSync w s)).
Proof.
  rewrite runSalesSync_trace. destruct (isRunning s) eqn:Hrun.
  - rewrite (runSalesSync_enters w s Hrun).
    apply (runSalesSync_guarded_persisted before w s).
  - rewrite (runSalesSync_skips w s Hrun). left. split; reflexivity.
Qed.

Lemma runRegistrationSync_guarded_persisted before w s :
  persistedAfter before (trace_of (runRegistrationSync_guarded w s)) = before.
Proof.
  unfold_methods. case_split; reflexivity.
Qed.

Lemma runRegistrationSync_persisted before w s :
  persistedAfter before (trace_of (runRegistrationSync w s)) = before.
Proof.
  rewrite runRegistrationSync_trace. destruct (isRunning s); [|reflexivity].
  cbn [persistedAfter]. apply runRegistrationSync_guarded_persisted.
Qed.

Lemma start_persisted before s :
  persistedAfter before
    (trace_of (start (ENSRegistration := ENSRegistration) s)) = Some "true".
Proof.
  destruct s as [[js|] [jr|] r lt ls ce mx]; reflexivity.
Qed.

Lemma triggerManualSync_persisted before (w1 w2 : world) s :
  persistedAfter before (trace_of (triggerManualSync w1 w2 s)) =
  persistedAfter before (trace_of (runSalesSync w1 s)).
Proof.
  rewrite triggerManualSync_trace. cbn [persistedAfter].
  rewrite persistedAfter_app.
  destruct (threw (completion_of (runSalesSync w1 s))); [reflexivity|].
  rewrite persistedAfter_app, runRegistrationSync_persisted.
  destruct (threw _); reflexivity.
Qed.

Lemma perform_persisted before o s :
  writesTheFlag before s (state_of (perform o s)) (trace_of (perform o s)).
Proof.
  destruct o as [ | | | |w|w1 w2|w|w|w|w]; cbn [perform].
  - right. rewrite start_persisted.
    destruct (start_fields (ENSRegistration := ENSRegistration) s)
      as (_ & _ & -> & _). reflexivity.
  - apply stop_persisted.
  - right. destruct s as [[js|] [jr|] r lt ls ce mx]; reflexivity.
  - left. split; reflexivity.
  - unfold writesTheFlag. rewrite initializeFromDatabase_trace.
    destruct (initializeFromDatabase_cases w s) as [[Hv ->]|[Hv ->]].
    + right. rewrite Hv. change (String.eqb "true" "true") with true.
      cbn [persistedAfter]. rewrite start_persisted.
      destruct (start_fields (ENSRegistration := ENSRegistration) s)
        as (_ & _ & -> & _). reflexivity.
    + left. split; [|reflexivity].
      destruct (getSystemState w "scheduler_enabled") as [[v|]|m];
        try reflexivity; [|destruct m; reflexivity].
      destruct (String.eqb_spec v "true") as [->|Hne]; [congruence|].
      reflexivity.
  - assert (Hs : state_of (bind (triggerManualSync w1 w2) (fun _ => ret tt) s)
                 = state_of (runSalesSync w1 s)).
    { rewrite <- (proj2 (triggerManualSync_runs_both w1 w2 s)).
      unfold bind, ret, state_of.
      destruct (triggerManualSync w1 w2 s) as [[[c|m] s1] t1]; reflexivity. }
    assert (Ht : trace_of (bind (triggerManualSync w1 w2) (fun _ => ret tt) s)
                 = trace_of (triggerManualSync w1 w2 s)).
    { unfold bind, ret, trace_of.
      destruct (triggerManualSync w1 w2 s) as [[[c|m] s1] t1]; cbn;
        [apply app_nil_r|reflexivity]. }
    unfold writesTheFlag. rewrite Hs, Ht, triggerManualSync_persisted.
    apply runSalesSync_persisted.
  - apply runSalesSync_persisted.
  - left. rewrite runRegistrationSync_persisted.
    destruct (runRegistrationSync_frame w s) as (_ & -> & _).
    split; reflexivity.
  - apply runSalesSync_guarded_persisted.
  - left. rewrite runRegistrationSync_guarded_persisted.
    destruct (runRegistrationSync_guarded_frame w s) as (_ & -> & _).
    split; reflexivity.
Qed.

Lemma history_persisted (ops : list op) : forall before s,
  before = Some (boolToString (isRunning s)) \/
  (before = None /\ isRunning s = false) ->
  persistedAfter before (snd (history ops s)) =
    Some (boolToString (isRunning (fst (history ops s)))) \/
  (persistedAfter before (snd (history ops s)) = None /\
   isRunning (fst (history ops s)) = false).
Proof.
  induction ops as [|o ops IH]; intros before s H; cbn [history fst snd].
  - exact H.
  - rewrite persistedAfter_app. apply IH.
    destruct (perform_persisted before o s) as [[-> ->]| ->].
    + exact H.
    + left. reflexivity.
Qed.

(** X3: after any sequence of operations on a freshly constructed scheduler,
    the last value the scheduler asked the database to store under
    [scheduler_enabled] spells its [isRunning] flag; if it never asked, the
    scheduler is not running. *)
Theorem persisted_flag_mirrors_isRunning (ops : list op) :
  let s := fst (history ops initial) in
  let stored := persistedAfter None (snd (history ops initial)) in
  stored = Some (boolToString (isRunning s)) \/
  (stored = None /\ isRunning s = false).
Proof.
  apply history_persisted. right. split; reflexivity.
Qed.

(** X4: restart continuity.  If the database answers with what an earlier
    scheduler last stored (or with no value when it stored nothing), then a
    newly constructed scheduler that runs [initializeFromDatabase] ends up
    running exactly when the earlier one was. *)
Theorem restart_resumes_the_persisted_state (ops : list op) w :
  getSystemState w "scheduler_enabled" =
    Normal (persistedAfter None (snd (history ops initial))) ->
  isRunning (state_of (initializeFromDatabase w initial)) =
  isRunning (fst (history ops initial)).
Proof.
  intros Hdb.
  pose proof (history_persisted ops None initial
                (or_intror (conj eq_refl eq_refl))) as Hlast.
  destruct (initializeFromDatabase_cases w initial) as [[Hv ->]|[Hv ->]].
  - destruct (start_fields (ProcessedSale := ProcessedSale)
                (ENSRegistration := ENSRegistration) initial)
      as (_ & _ & -> & _).
    rewrite Hv in Hdb. injection Hdb as Hdb.
    destruct Hlast as [Hl|[Hl _]]; rewrite Hl in Hdb; [|discriminate Hdb].
    destruct (isRunning (fst (history ops initial)));
      [reflexivity|discriminate Hdb].
  - cbn [initial isRunning].
    destruct Hlast as [Hl|[_ Hr]]; [|symmetry; exact Hr].
    rewrite Hl in Hdb.
    destruct (isRunning (fst (history ops initial))); [|reflexivity].
    exfalso. apply Hv. exact Hdb.
Qed.

(** ** [forceStop] and [initializeFromDatabase] *)


(** X6: [initializeFromDatabase] is fail-closed.  Unless the database
    answers exactly the string "true", the object is left as it was, no cron
    job is started and nothing is written back; this covers a missing value,
    any other string and a failing read.  When the answer is "true" the
    method does what [start] does. *)
Theorem initializeFromDatabase_is_fail_closed w s :
  (getSystemState w "scheduler_enabled" <> Normal (Some "true") ->
   state_of (initializeFromDatabase w s) = s /\
   cronStarted (trace_of (initializeFromDatabase w s)) = false /\
   statePersisted (trace_of (initializeFromDatabase w s)) = false) /\
  (getSystemState w "scheduler_enabled" = Normal (Some "true") ->
   state_of (initializeFromDatabase w s) =
     state_of (start (ENSRegistration := ENSRegistration) s) /\
   isRunning (state_of (initializeFromDatabase w s)) = true /\
   cronStarted (trace_of (initializeFromDatabase w s)) = true).
Proof.
  split; intros Hv.
  - destruct (initializeFromDatabase_cases w s) as [[Hv' _]|[_ ->]];
      [congruence|].
    split; [reflexivity|].
    rewrite initializeFromDatabase_trace.
    destruct (getSystemState w "scheduler_enabled") as [[v|]|m];
      try (split; reflexivity); [|destruct m; split; reflexivity].
    destruct (String.eqb_spec v "true") as [->|Hne]; [congruence|].
    split; reflexivity.
  - destruct (initializeFromDatabase_cases w s) as [[_ ->]|[Hv' _]];
      [|congruence].
    split; [reflexivity|].
    split; [apply start_fields|].
    rewrite initializeFromDatabase_trace, Hv.
    change (String.eqb "true" "true") with true.
    destruct s as [[js|] [jr|] r lt ls ce mx]; reflexivity.
Qed.

(** ** What the runs hand to the posting pipeline *)

Ltac in_trace H :=
  cbn in H;
  repeat (destruct H as [H|H]; [try discriminate H|]);
  try contradiction.

Lemma runSalesSync_catch_posts_nothing message s sales settings :
  ~ In (AutoTweetProcessNewSales sales settings)
      (trace_of (runSalesSync_catch (ProcessedSale := ProcessedSale)
                   (ENSRegistration := ENSRegistration) message s)).
Proof.
  destruct s as [[js|] [jr|] r lt ls ce mx], message; unfold_methods; cbn;
    destruct (mx <=? ce + 1); cbn; intros H; in_trace H.
Qed.

Lemma runSalesSync_try_posts_the_fetched w s sales settings :
  In (AutoTweetProcessNewSales sales settings)
     (trace_of (runSalesSync_try w s)) ->
  exists result,
    salesProcessing_processNewSales w = Normal result /\
    sales = processedSales result /\
    getSettings w = Normal settings.
Proof.
  unfold_methods.
  destruct (refreshTimeCache w) as [u|m]; cbn; [|intros H; in_trace H].
  destruct (salesProcessing_processNewSales w) as [result|m]; cbn;
    [|intros H; in_trace H].
  destruct ((0 <? newSales result)
            && (0 <? Z.of_nat (Datatypes.length (processedSales result))));
    [|case_split; intros H; in_trace H].
  destruct (getSettings w) as [st|m]; cbn; [|intros H; in_trace H].
  destruct (enabled st); cbn; [|case_split; intros H; in_trace H].
  destruct (isAutoPostingEnabled w); cbn;
    [|case_split; intros H; in_trace H].
  case_split; intros H; in_trace H;
    injection H as <- <-; exists result; repeat split.
Qed.

(** X7: whenever a sales run calls the posting pipeline, it hands over
    exactly the records that the fetch of this run returned, together with
    the settings that this run read. *)
Theorem posting_pipeline_receives_the_fetched_records w s sales settings :
  In (AutoTweetProcessNewSales sales settings) (trace_of (runSalesSync w s)) ->
  exists result,
    salesProcessing_processNewSales w = Normal result /\
    sales = processedSales result /\
    getSettings w = Normal settings.
Proof.
  rewrite runSalesSync_trace.
  destruct (isRunning s); [|intros H; in_trace H].
  intros [H|H]; [discriminate H|].
  rewrite runSalesSync_guarded_trace in H. apply in_app_or in H.
  destruct H as [H|H].
  - exact (runSalesSync_try_posts_the_fetched w s sales settings H).
  - destruct (completion_of (runSalesSync_try w s)) as [u|m]; [destruct H|].
    exfalso. exact (runSalesSync_catch_posts_nothing m s sales settings H).
Qed.

Lemma runRegistrationSync_guarded_gate w s :
  (registrationPipelineInvoked (trace_of (runRegistrationSync_guarded w s))
     = true <->
   exists registrations settings,
     getUnpostedRegistrations w 10 = Normal registrations /\
     registrations <> [] /\
     getSettings w = Normal settings /\
     enabled settings = true /\
     registrationsEnabled settings = true /\
     isAutoPostingEnabled w = true) /\
  (forall registrations settings,
     In (AutoTweetProcessNewRegistrations registrations settings)
        (trace_of (runRegistrationSync_guarded w s)) ->
     getUnpostedRegistrations w 10 = Normal registrations /\
     getSettings w = Normal settings) /\
  (forall limit,
     In (GetUnpostedRegistrations limit)
        (trace_of (runRegistrationSync_guarded w s)) ->
     limit = 10).
Proof.
  unfold_methods.
  destruct (getUnpostedRegistrations w 10) as [regs|m]; cbn.
  2:{ destruct m; cbn;
        (split;
         [split; [discriminate|intros (r & st & H & _); discriminate H]|]);
        (split; [intros r st H; in_trace H|]);
        intros limit H; in_trace H; injection H as <-; reflexivity. }
  destruct (0 <? Z.of_nat (Datatypes.length regs)) eqn:Hregs.
  2:{ assert (Hempty : regs = []).
      { destruct regs; [reflexivity|discriminate Hregs]. }
      subst regs. cbn.
      split; [split; [discriminate|]|].
      - intros (r & st & H & Hne & _). injection H as <-. congruence.
      - split; [intros r st H; in_trace H|].
        intros limit H; in_trace H. injection H as <-. reflexivity. }
  apply records_present in Hregs.
  destruct (getSettings w) as [st|m]; cbn.
  2:{ destruct m; cbn;
        (split;
         [split;
          [discriminate|intros (r & st & _ & _ & H & _); discriminate H]|]);
        (split; [intros r st H; in_trace H|]);
        intros limit H; in_trace H; injection H as <-; reflexivity. }
  destruct (enabled st) eqn:Henabled; cbn.
  2:{ split; [split; [case_split; discriminate|]|].
      - intros (r & st' & _ & _ & H & He & _). injection H as <-. congruence.
      - split; [intros r st' H; case_split; in_trace H|].
        intros limit H; case_split; in_trace H; injection H as <-;
          reflexivity. }
  destruct (registrationsEnabled st) eqn:Hsub; cbn.
  2:{ split; [split; [case_split; discriminate|]|].
      - intros (r & st' & _ & _ & H & _ & He & _). injection H as <-.
        congruence.
      - split; [intros r st' H; case_split; in_trace H|].
        intros limit H; case_split; in_trace H; injection H as <-;
          reflexivity. }
  destruct (isAutoPostingEnabled w) eqn:Hgate; cbn.
  2:{ split; [split; [case_split; discriminate|]|].
      - intros (r & st' & _ & _ & _ & _ & _ & H). discriminate H.
      - split; [intros r st' H; case_split; in_trace H|].
        intros limit H; case_split; in_trace H; injection H as <-;
          reflexivity. }
  split; [split|split].
  - intros _. exists regs, st. repeat split; assumption.
  - intros _. case_split; reflexivity.
  - case_split; intros r st' H; in_trace H; injection H as <- <-;
      split; reflexivity.
  - case_split; intros limit H; in_trace H; injection H as <-; reflexivity.
Qed.

(** X8: the registration run hands registrations to the posting pipeline
    exactly when it passed its guard, the database returned a non-empty
    batch, the settings were read with both [enabled] and
    [registrationsEnabled] true, and [isAutoPostingEnabled()] is true; what
    it hands over is that batch with those settings, and the batch is always
    requested with limit 10. *)
Theorem registration_posting_requires_three_flags w s :
  (registrationPipelineInvoked (trace_of (runRegistrationSync w s)) = true <->
   isRunning s = true /\
   exists registrations settings,
     getUnpostedRegistrations w 10 = Normal registrations /\
     registrations <> [] /\
     getSettings w = Normal settings /\
     enabled settings = true /\
     registrationsEnabled settings = true /\
     isAutoPostingEnabled w = true) /\
  (forall registrations settings,
     In (AutoTweetProcessNewRegistrations registrations settings)
        (trace_of (runRegistrationSync w s)) ->
     getUnpostedRegistrations w 10 = Normal registrations /\
     getSettings w = Normal settings) /\
  (forall limit,
     In (GetUnpostedRegistrations limit) (trace_of (runRegistrationSync w s)) ->
     limit = 10).
Proof.
  pose proof (runRegistrationSync_guarded_gate w s) as (Hiff & Hargs & Hlimit).
  rewrite runRegistrationSync_trace. destruct (isRunning s).
  - split; [|split].
    + change (registrationPipelineInvoked
                (Log info "Starting registration sync..."
                   :: trace_of (runRegistrationSync_guarded w s)))
        with (registrationPipelineInvoked
                (trace_of (runRegistrationSync_guarded w s))).
      rewrite Hiff. split; [intros H; split; [reflexivity|exact H]|tauto].
    + intros r st [H|H]; [discriminate H|]. exact (Hargs r st H).
    + intros limit [H|H]; [discriminate H|]. exact (Hlimit limit H).
  - split; [|split].
    + split; [discriminate|intros [H _]; discriminate H].
    + intros r st H; in_trace H.
    + intros limit H; in_trace H.
Qed.

(** X9: a sales run whose fetch brings nothing new (a count of zero or an
    empty list of records) is a successful run that asks for no settings,
    consults no gate and posts nothing: the counter goes to 0 and the stats
    record the fetch result with no outcomes, even if reading the settings
    would have failed. *)
Theorem sales_run_without_new_sales_is_quiet w s result :
  isRunning s = true ->
  threw (refreshTimeCache w) = false ->
  salesProcessing_processNewSales w = Normal result ->
  newSales result <= 0 \/ processedSales result = [] ->
  settingsFetched (trace_of (runSalesSync w s)) = false /\
  postingPipelineInvoked (trace_of (runSalesSync w s)) = false /\
  ~ In IsAutoPostingEnabled (trace_of (runSalesSync w s)) /\
  state_of (runSalesSync w s) =
    set_consecutiveErrors 0
      (set_lastRunStats (Some (SalesRunStats result []))
         (set_lastRunTime (Some (startTime w)) s)).
Proof.
  intros Hrun Hrefresh Hfetch Hquiet.
  assert (Hcond : (0 <? newSales result)
                  && (0 <? Z.of_nat (Datatypes.length (processedSales result)))
                  = false).
  { destruct Hquiet as [H|H].
    - destruct (Z.ltb_spec 0 (newSales result)); [lia|reflexivity].
    - rewrite H. apply andb_false_r. }
  assert (Htry : completion_of (runSalesSync_try w s) = Normal tt /\
                 state_of (runSalesSync_try w s) =
                   set_consecutiveErrors 0
                     (set_lastRunStats (Some (SalesRunStats result []))
                        (set_lastRunTime (Some (startTime w)) s)) /\
                 settingsFetched (trace_of (runSalesSync_try w s)) = false /\
                 postingPipelineInvoked (trace_of (runSalesSync_try w s))
                   = false /\
                 ~ In IsAutoPostingEnabled (trace_of (runSalesSync_try w s))).
  { unfold_methods.
    destruct (refreshTimeCache w) as [[]|m]; [|discriminate Hrefresh].
    rewrite Hfetch. cbn. rewrite Hcond.
    case_split; repeat split; try reflexivity; intros H; in_trace H. }
  destruct Htry as (Hc & Hs & Hset & Hpost & Hgate).
  rewrite runSalesSync_trace, Hrun, (runSalesSync_enters w s Hrun).
  rewrite runSalesSync_guarded_trace, Hc, app_nil_r.
  destruct (runSalesSync_guarded_cases w s) as [[_ ->]|[m [Hm _]]];
    [|congruence].
  split; [exact Hset|]. split; [exact Hpost|]. split; [|exact Hs].
  intros [H|H]; [discriminate H|]. exact (Hgate H).
Qed.

(** ** The trip-wire, the counter and health *)

(** X10: on a reachable, running scheduler a sales run clears [isRunning]
    exactly when its [try] block threw a value other than [null] and
    [undefined] and the counter thereby reached 5.  A run that failed with
    such a value below the threshold keeps both handles and the flag, leaves
    [lastRunTime] alone and records the thrown message with the new count.
    A run whose [try] block threw [null] or [undefined] only adds one to the
    counter: its [catch] block fails on [error.message] before it records
    anything or looks at the threshold, so the schedule and the stats stay
    as they were and the run itself throws. *)
Theorem sales_run_stops_exactly_at_threshold w s :
  reachable (ENSRegistration := ENSRegistration) s ->
  isRunning s = true ->
  (isRunning (state_of (runSalesSync w s)) = false <->
   exists thrown,
     completion_of (runSalesSync_try w s) = Throw thrown /\
     nullish thrown = false /\
     5 <= consecutiveErrors s + 1) /\
  (forall thrown,
     completion_of (runSalesSync_try w s) = Throw thrown ->
     nullish thrown = false ->
     consecutiveErrors s + 1 < 5 ->
     sameSchedule s (state_of (runSalesSync w s)) /\
     lastRunTime (state_of (runSalesSync w s)) = lastRunTime s /\
     lastRunStats (state_of (runSalesSync w s)) =
       Some (FailureStats (messageOf thrown) (consecutiveErrors s + 1))) /\
  (forall thrown,
     completion_of (runSalesSync_try w s) = Throw thrown ->
     nullish thrown = true ->
     consecutiveErrors (state_of (runSalesSync w s)) =
       consecutiveErrors s + 1 /\
     sameSchedule s (state_of (runSalesSync w s)) /\
     lastRunTime (state_of (runSalesSync w s)) = lastRunTime s /\
     lastRunStats (state_of (runSalesSync w s)) = lastRunStats s /\
     threw (completion_of (runSalesSync w s)) = true).
Proof.
  intros Hreach Hrun.
  pose proof (reachable_threshold s Hreach) as Hmax.
  pose proof (runSalesSync_completion w s) as Hcompl.
  rewrite (runSalesSync_enters w s Hrun).
  destruct (runSalesSync_guarded_cases w s) as [[Hok ->]|[m [Hm ->]]].
  - destruct (runSalesSync_try_completes w s Hok) as (r & p & _ & -> & _).
    split; [|split].
    + split; [cbn; rewrite Hrun; discriminate|].
      intros (thrown & H & _). rewrite H in Hok. discriminate Hok.
    + intros thrown H. rewrite H in Hok. discriminate Hok.
    + intros thrown H. rewrite H in Hok. discriminate Hok.
  - pose proof (runSalesSync_catch_fields (ENSRegistration := ENSRegistration)
                  m s) as (Hce & Htime & Hrest).
    destruct (nullish m) eqn:Hnull.
    + destruct Hrest as (Hstats & Hsched). split; [|split].
      * destruct Hsched as (_ & _ & H3 & _). rewrite H3, Hrun.
        split; [discriminate|].
        intros (thrown & H & Hn & _). rewrite Hm in H. injection H as <-.
        congruence.
      * intros thrown H Hn. rewrite Hm in H. injection H as <-. congruence.
      * intros thrown H _.
        split; [exact Hce|]. split; [exact Hsched|].
        split; [exact Htime|]. split; [exact Hstats|].
        rewrite Hrun, Hm in Hcompl. cbn [rejectsNullish andb] in Hcompl.
        rewrite Hnull in Hcompl.
        destruct (completion_of (runSalesSync w s));
          [discriminate Hcompl|reflexivity].
    + destruct Hrest as (Hstats & Hsched). rewrite Hmax in Hsched.
      destruct (Z.leb_spec 5 (consecutiveErrors s + 1)) as [Hle|Hlt].
      * split; [|split].
        -- split.
           ++ intros _. exists m. repeat split; assumption.
           ++ intros _. destruct Hsched as (_ & _ & H3 & _). rewrite H3.
              destruct (reachable_handlesPaired s Hreach)
                as [[_ (js & jr & Hs & Hj & _)]|(Hr & _)]; [|congruence].
              rewrite Hs. reflexivity.
        -- intros thrown _ _ Hlow. lia.
        -- intros thrown H Hn. rewrite Hm in H. injection H as <-.
           congruence.
      * split; [|split].
        -- destruct Hsched as (_ & _ & H3 & _). rewrite H3, Hrun.
           split; [discriminate|intros (thrown & _ & _ & H); lia].
        -- intros thrown H _ _. rewrite Hm in H. injection H as <-.
           split; [exact Hsched|]. split; assumption.
        -- intros thrown H Hn. rewrite Hm in H. injection H as <-.
           congruence.
Qed.

Lemma step_counter o s :
  consecutiveErrors (step o s) = consecutiveErrors s \/
  consecutiveErrors (step o s) = 0 \/
  consecutiveErrors (step o s) = consecutiveErrors s + 1.
Proof.
  assert (Hguarded : forall w,
    consecutiveErrors (state_of (runSalesSync_guarded w s)) = 0 \/
    consecutiveErrors (state_of (runSalesSync_guarded w s)) =
      consecutiveErrors s + 1).
  { intros w.
    destruct (runSalesSync_guarded_cases w s) as [[Hok ->]|[m [Hm ->]]].
    - destruct (runSalesSync_try_completes w s Hok) as (r & p & _ & -> & _).
      left. reflexivity.
    - right. apply runSalesSync_catch_fields. }
  assert (Hrun : forall w,
    consecutiveErrors (state_of (runSalesSync w s)) = consecutiveErrors s \/
    consecutiveErrors (state_of (runSalesSync w s)) = 0 \/
    consecutiveErrors (state_of (runSalesSync w s)) = consecutiveErrors s + 1).
  { intros w. destruct (isRunning s) eqn:Hr.
    - rewrite (runSalesSync_enters w s Hr). right. apply Hguarded.
    - rewrite (runSalesSync_skips w s Hr). left. reflexivity. }
  destruct o as [ | | | |w|w1 w2|w|w|w|w]; cbn [step].
  - left. apply start_fields.
  - left. apply stop_fields.
  - left. apply forceStop_fields.
  - right. left. reflexivity.
  - left. destruct (initializeFromDatabase_cases w s) as [[_ ->]|[_ ->]];
      [apply start_fields|reflexivity].
  - rewrite (proj2 (triggerManualSync_runs_both w1 w2 s)). apply Hrun.
  - apply Hrun.
  - left. destruct (runRegistrationSync_frame w s) as (_ & -> & _).
    reflexivity.
  - right. apply Hguarded.
  - left. destruct (runRegistrationSync_guarded_frame w s) as (_ & -> & _).
    reflexivity.
Qed.

(** X11: the error counter of a reachable scheduler is never negative, and
    the only operations that move it are [resetErrorCounter] and the sales
    run (directly, resumed, or inside a manual sync): each operation leaves
    it alone, sets it to 0 or adds one; [start], [stop], [forceStop],
    [initializeFromDatabase] and the registration run never touch it. *)
Theorem error_counter_moves_only_by_sales_runs_and_resets s :
  reachable (ENSRegistration := ENSRegistration) s ->
  0 <= consecutiveErrors s /\
  (forall o,
     consecutiveErrors (step o s) = consecutiveErrors s \/
     consecutiveErrors (step o s) = 0 \/
     consecutiveErrors (step o s) = consecutiveErrors s + 1) /\
  (forall o,
     match o with
     | CallStart | CallStop | CallForceStop | CallInitializeFromDatabase _
     | FireRegistration _ | ResumeRegistration _ =>
         consecutiveErrors (step o s) = consecutiveErrors s
     | _ => True
     end).
Proof.
  intros Hreach. split; [|split].
  - induction Hreach as [|o s Hreach IH]; [cbn; lia|].
    destruct (step_counter o s) as [H|[H|H]]; rewrite H; lia.
  - intros o. apply step_counter.
  - intros [ | | | |w|w1 w2|w|w|w|w]; cbn [step]; try exact I.
    + apply start_fields.
    + apply stop_fields.
    + apply forceStop_fields.
    + destruct (initializeFromDatabase_cases w s) as [[_ ->]|[_ ->]];
        [apply start_fields|reflexivity].
    + destruct (runRegistrationSync_frame w s) as (_ & -> & _). reflexivity.
    + destruct (runRegistrationSync_guarded_frame w s) as (_ & -> & _).
      reflexivity.
Qed.

(** X12: [start] does not clear the error counter.  On a reachable object, a
    started scheduler is healthy exactly when the counter it inherited is
    below 5; [resetErrorCounter] followed by [start] always gives a healthy
    scheduler; and after a restart with a counter of 4 or more, the first
    sales run that fails with a value other than [null] and [undefined]
    stops the scheduler again. *)
Theorem restart_keeps_the_error_count s :
  reachable (ENSRegistration := ENSRegistration) s ->
  let restarted := state_of (start (ENSRegistration := ENSRegistration) s) in
  consecutiveErrors restarted = consecutiveErrors s /\
  isHealthy restarted = (consecutiveErrors s <? 5) /\
  isHealthy
    (state_of (start (ENSRegistration := ENSRegistration)
                 (state_of (resetErrorCounter
                              (ENSRegistration := ENSRegistration) s))))
    = true /\
  (forall w thrown,
     4 <= consecutiveErrors s ->
     completion_of (runSalesSync_try w restarted) = Throw thrown ->
     nullish thrown = false ->
     isRunning (state_of (runSalesSync w restarted)) = false).
Proof.
  intros Hreach restarted. subst restarted.
  pose proof (reachable_threshold s Hreach) as Hmax.
  pose proof (start_fields (ENSRegistration := ENSRegistration) s)
    as (_ & _ & Hrun & _ & _ & Hce & Hmx).
  split; [exact Hce|]. split; [|split].
  - unfold isHealthy. rewrite Hrun, Hce, Hmx, Hmax. reflexivity.
  - pose proof (start_fields (ENSRegistration := ENSRegistration)
                  (state_of (resetErrorCounter
                               (ENSRegistration := ENSRegistration) s)))
      as (_ & _ & Hrun' & _ & _ & Hce' & Hmx').
    unfold isHealthy. rewrite Hrun', Hce', Hmx'. cbn. rewrite Hmax.
    reflexivity.
  - intros w thrown Hfour Hfail Hvalue.
    assert (Hreach' : reachable (ENSRegistration := ENSRegistration)
                        (state_of (start (ENSRegistration := ENSRegistration) s))).
    { exact (reachable_step (CallStart : op) s Hreach). }
    pose proof (failed_sales_run w _ Hreach' Hrun) as Hfailed.
    rewrite Hfail in Hfailed. destruct (Hfailed eq_refl) as (Hnew & Hstop).
    apply Hstop; [exact Hvalue|]. rewrite Hnew, Hce. lia.
Qed.

(** ** Manual sync and status *)

(** X13: on a stopped scheduler [triggerManualSync] does nothing at all and
    still resolves to [{ success: true, ... }]: both runs are skipped by
    their guards, no collaborator is called, and the object is unchanged. *)
Theorem manual_sync_on_a_stopped_scheduler_does_nothing (w1 w2 : world) s :
  isRunning s = false ->
  triggerManualSync w1 w2 s =
  (Normal (mkManualSyncResult true
             (Some "Both sales and registration sync completed") None),
   s,
   [Log info
      "Manual sync triggered - running both sales and registration processing";
    Log debug "Skipping sales sync - scheduler is stopped";
    Log debug "Skipping registration sync - scheduler is stopped"]).
Proof.
  intros Hstopped.
  unfold triggerManualSync, try_catch, bind, call, ret.
  rewrite (runSalesSync_skips w1 s Hstopped).
  unfold runRegistrationSync, bind, this, call.
  rewrite Hstopped. reflexivity.
Qed.

(** X14: what [getStatus] shows of a reachable scheduler goes with its
    flag: when [isRunning] is false all three next-run times are null, and
    when it is true both per-task times are present and [nextRunTime] is the
    earlier of the two. *)
Theorem status_next_runs_follow_isRunning h s :
  reachable (ENSRegistration := ENSRegistration) s ->
  status_isRunning (getStatus h s) = isRunning s /\
  (isRunning s = false ->
   nextRunTime (getStatus h s) = None /\
   nextSalesRunTime (getStatus h s) = None /\
   nextRegistrationRunTime (getStatus h s) = None) /\
  (isRunning s = true ->
   exists sale reg,
     nextSalesRunTime (getStatus h s) = Some sale /\
     nextRegistrationRunTime (getStatus h s) = Some reg /\
     nextRunTime (getStatus h s) = Some (Z.min sale reg)).
Proof.
  intros Hreach. split; [reflexivity|].
  destruct (reachable_handlesPaired s Hreach)
    as [[Hr (js & jr & Hs & Hj & _)]|(Hr & Hs & Hj)];
    (split; [intros Hstopped|intros Hrunning]); try congruence.
  - unfold getStatus. rewrite Hs, Hj. cbn.
    exists (nextDate h js), (nextDate h jr).
    split; [reflexivity|]. split; [reflexivity|].
    f_equal. destruct (Z.ltb_spec (nextDate h js) (nextDate h jr)); lia.
  - unfold getStatus. rewrite Hs, Hj. cbn. repeat split.
Qed.

(** X15: [uptime] in the status measures the time since the start of the
    last sales run whose [try] block completed, not the time the scheduler
    has been running: on a running scheduler a completed sales run sets it
    to the clock minus the start time of that run; a failed sales run, a
    sales run skipped by its guard, a registration run, [start], [stop],
    [forceStop] and [resetErrorCounter] leave it as it was. *)
Theorem uptime_counts_from_the_last_completed_sales_run h w s :
  (isRunning s = true ->
   threw (completion_of (runSalesSync_try w s)) = false ->
   uptime (getStatus h (state_of (runSalesSync w s))) =
     dateNow h - startTime w) /\
  (isRunning s = false \/
   threw (completion_of (runSalesSync_try w s)) = true ->
   uptime (getStatus h (state_of (runSalesSync w s))) =
     uptime (getStatus h s)) /\
  uptime (getStatus h (state_of (runRegistrationSync w s))) =
    uptime (getStatus h s) /\
  uptime (getStatus h (step (CallStart : op) s)) = uptime (getStatus h s) /\
  uptime (getStatus h (step (CallStop : op) s)) = uptime (getStatus h s) /\
  uptime (getStatus h (step (CallForceStop : op) s)) =
    uptime (getStatus h s) /\
  uptime (getStatus h (step (CallResetErrorCounter : op) s)) =
    uptime (getStatus h s).
Proof.
  assert (Hup : forall s1 s2 : Service,
            lastRunTime s1 = lastRunTime s2 ->
            uptime (getStatus h s1) = uptime (getStatus h s2)).
  { intros s1 s2 H. unfold getStatus. cbn. rewrite H. reflexivity. }
  split; [|split; [|split; [|split; [|split; [|split]]]]].
  - intros Hrun Hok. rewrite (runSalesSync_enters w s Hrun).
    destruct (runSalesSync_guarded_cases w s) as [[_ ->]|[m [Hm _]]];
      [|rewrite Hm in Hok; discriminate Hok].
    destruct (runSalesSync_try_completes w s Hok) as (r & p & _ & -> & _).
    reflexivity.
  - intros Hsame. destruct (isRunning s) eqn:Hrun.
    + destruct Hsame as [Hfalse|Hfail]; [discriminate Hfalse|].
      rewrite (runSalesSync_enters w s Hrun).
      destruct (runSalesSync_guarded_cases w s) as [[Hok _]|[m [_ ->]]];
        [congruence|].
      apply Hup. apply runSalesSync_catch_fields.
    + rewrite (runSalesSync_skips w s Hrun). reflexivity.
  - destruct (runRegistrationSync_frame w s) as (_ & -> & _). reflexivity.
  - apply Hup. cbn [step]. apply start_fields.
  - apply Hup. cbn [step]. apply stop_fields.
  - apply Hup. cbn [step]. apply forceStop_fields.
  - reflexivity.
Qed.

End MoreProperties.
(** * Properties of the emoji map generator *)

Module GenerateEmojiMapProperties.

Import GenerateEmojiMap.

Section ObjectLemmas.

Context {V : Type}.

Implicit Types (obj : list (string * V)) (key : string) (value : V).

Lemma getProperty_setProperty obj key value key' :
  getProperty (setProperty obj key value) key' =
  if String.eqb key key' then Some value else getProperty obj key'.
Proof.
  induction obj as [|[k v] obj IH]; cbn [setProperty getProperty].
  - reflexivity.
  - destruct (String.eqb_spec k key) as [->|Hk]; cbn [getProperty].
    + destruct (String.eqb_spec key key'); reflexivity.
    + rewrite IH. destruct (String.eqb_spec k key') as [->|Hk'];
        [|reflexivity].
      destruct (String.eqb_spec key key'); [congruence|reflexivity].
Qed.

Lemma getProperty_None obj key :
  getProperty obj key = None <-> ~ In key (map fst obj).
Proof.
  induction obj as [|[k v] obj IH]; cbn [getProperty map fst In].
  - tauto.
  - destruct (String.eqb_spec k key) as [->|Hk].
    + split; [discriminate|]. intros H. exfalso. apply H. left. reflexivity.
    + rewrite IH. tauto.
Qed.

Lemma setProperty_keys obj key value key' :
  In key' (map fst (setProperty obj key value)) <->
  key' = key \/ In key' (map fst obj).
Proof.
  induction obj as [|[k v] obj IH]; cbn [setProperty map fst In].
  - intuition congruence.
  - destruct (String.eqb_spec k key) as [->|Hk]; cbn [map fst In].
    + intuition congruence.
    + rewrite IH. tauto.
Qed.

Lemma setProperty_NoDup obj key value :
  NoDup (map fst obj) -> NoDup (map fst (setProperty obj key value)).
Proof.
  induction obj as [|[k v] obj IH]; cbn [setProperty map fst]; intros H.
  - constructor; [intros []|constructor].
  - destruct (String.eqb_spec k key) as [->|Hk]; cbn [map fst].
    + exact H.
    + inversion H as [|k' l Hnotin Hrest]; subst.
      constructor; [|apply IH, Hrest].
      rewrite setProperty_keys. intros [->|Hin]; [congruence|tauto].
Qed.

Lemma setProperty_new_length obj key value :
  getProperty obj key = None ->
  List.length (setProperty obj key value) = S (List.length obj).
Proof.
  induction obj as [|[k v] obj IH]; cbn [setProperty getProperty List.length].
  - reflexivity.
  - destruct (String.eqb_spec k key) as [->|Hk]; [discriminate|].
    intros H. cbn [List.length]. rewrite (IH H). reflexivity.
Qed.

Lemma objectLiteral_NoDup (rows : list (string * V)) :
  NoDup (map fst (objectLiteral rows)).
Proof.
  unfold objectLiteral.
  assert (H : forall obj, NoDup (map fst obj) ->
            NoDup (map fst (fold_left
                     (fun o row => setProperty o (fst row) (snd row))
                     rows obj))).
  { induction rows as [|row rows IH]; intros obj Hobj; cbn [fold_left].
    - exact Hobj.
    - apply IH, setProperty_NoDup, Hobj. }
  apply H. constructor.
Qed.

End ObjectLemmas.

Lemma includes_In files fileName :
  includes files fileName = true <-> In fileName files.
Proof.
  unfold includes. rewrite existsb_exists. split.
  - intros (f & Hin & Heq). apply String.eqb_eq in Heq. subst. exact Hin.
  - intros Hin. exists fileName. split; [exact Hin|apply String.eqb_refl].
Qed.

Lemma svgFiles_In dir file :
  In file (svgFiles dir) <-> In file dir /\ endsWith file ".svg" = true.
Proof. unfold svgFiles. rewrite filter_In. reflexivity. Qed.

(** The inner loop stops at the first candidate that is present. *)
Lemma firstPresent_Some allFiles possibleFiles file :
  firstPresent allFiles possibleFiles = Some file <->
  exists before after,
    possibleFiles = before ++ file :: after /\
    In file allFiles /\
    forall earlier, In earlier before -> ~ In earlier allFiles.
Proof.
  induction possibleFiles as [|f rest IH]; cbn [firstPresent].
  - split; [discriminate|].
    intros (before & after & H & _). destruct before; discriminate H.
  - destruct (includes allFiles f) eqn:Hf.
    + apply includes_In in Hf. split.
      * intros H. injection H as H. subst. exists [], rest.
        split; [reflexivity|]. split; [assumption|]. intros e [].
      * intros (before & after & H & Hin & Hearlier).
        destruct before as [|b before]; cbn in H; injection H as H1 H2;
          subst.
        -- reflexivity.
        -- exfalso. eapply Hearlier; [left; reflexivity|assumption].
    + assert (Hnot : ~ In f allFiles).
      { intros Hin. apply includes_In in Hin. congruence. }
      rewrite IH. split.
      * intros (before & after & -> & Hin & Hearlier).
        exists (f :: before), after. split; [reflexivity|].
        split; [exact Hin|]. intros e [<-|He]; [exact Hnot|].
        apply Hearlier, He.
      * intros (before & after & H & Hin & Hearlier).
        destruct before as [|b before]; cbn in H; injection H as H1 H2;
          subst.
        -- contradiction.
        -- exists before, after. split; [reflexivity|].
           split; [exact Hin|]. intros e He. apply Hearlier. right. exact He.
Qed.

Lemma firstPresent_None allFiles possibleFiles :
  firstPresent allFiles possibleFiles = None <->
  forall candidate, In candidate possibleFiles -> ~ In candidate allFiles.
Proof.
  induction possibleFiles as [|f rest IH]; cbn [firstPresent In].
  - split; [intros _ c []|reflexivity].
  - destruct (includes allFiles f) eqn:Hf.
    + apply includes_In in Hf. split; [discriminate|].
      intros H. exfalso. apply (H f); [left; reflexivity|exact Hf].
    + assert (Hnot : ~ In f allFiles).
      { intros Hin. apply includes_In in Hin. congruence. }
      rewrite IH. split.
      * intros H c [<-|Hc]; [exact Hnot|apply H, Hc].
      * intros H c Hc. apply H. right. exact Hc.
Qed.

Lemma generate_counts allFiles table : forall acc,
  found (fold_left (visit allFiles) table acc) +
  notFound (fold_left (visit allFiles) table acc) =
  found acc + notFound acc + Z.of_nat (List.length table).
Proof.
  induction table as [|entry table IH]; intros acc; cbn [fold_left List.length].
  - lia.
  - rewrite IH. unfold visit.
    destruct (truthy (firstPresent allFiles (snd entry))); cbn [found notFound];
      lia.
Qed.

Lemma generate_counters_grow allFiles table : forall acc,
  found acc <= found (fold_left (visit allFiles) table acc) /\
  notFound acc <= notFound (fold_left (visit allFiles) table acc).
Proof.
  induction table as [|entry table IH]; intros acc; cbn [fold_left].
  - lia.
  - destruct (IH (visit allFiles acc entry)) as [H1 H2]. unfold visit in *.
    destruct (truthy (firstPresent allFiles (snd entry)));
      cbn [found notFound] in *; lia.
Qed.

Lemma generate_lookup allFiles table : forall acc key,
  NoDup (map fst table) ->
  (forall k, In k (map fst table) -> getProperty (emojiMap acc) k = None) ->
  getProperty (emojiMap (fold_left (visit allFiles) table acc)) key =
  match getProperty table key with
  | Some possibleFiles => truthy (firstPresent allFiles possibleFiles)
  | None => getProperty (emojiMap acc) key
  end.
Proof.
  induction table as [|[emoji files] table IH]; intros acc key Hnodup Hfresh;
    cbn [fold_left getProperty].
  - reflexivity.
  - cbn [map fst] in Hnodup. inversion Hnodup as [|e l Hnotin Hrest]; subst.
    assert (Hstep : forall k,
              getProperty (emojiMap (visit allFiles acc (emoji, files))) k =
              if String.eqb emoji k
              then match truthy (firstPresent allFiles files) with
                   | Some f => Some f
                   | None => getProperty (emojiMap acc) k
                   end
              else getProperty (emojiMap acc) k).
    { intros k. unfold visit. cbn [fst snd].
      destruct (truthy (firstPresent allFiles files)); cbn [emojiMap].
      - apply getProperty_setProperty.
      - destruct (String.eqb emoji k); reflexivity. }
    rewrite IH; [|exact Hrest|].
    + destruct (String.eqb_spec emoji key) as [->|Hne].
      * rewrite (proj2 (getProperty_None table key) Hnotin), Hstep.
        rewrite String.eqb_refl.
        destruct (truthy (firstPresent allFiles files)); [reflexivity|].
        apply Hfresh. left. reflexivity.
      * destruct (getProperty table key); [reflexivity|].
        rewrite Hstep. destruct (String.eqb_spec emoji key); [congruence|].
        reflexivity.
    + intros k Hk. rewrite Hstep.
      destruct (String.eqb_spec emoji k) as [->|Hne]; [contradiction|].
      apply Hfresh. right. exact Hk.
Qed.

Lemma generate_size allFiles table : forall acc,
  NoDup (map fst table) ->
  (forall k, In k (map fst table) -> getProperty (emojiMap acc) k = None) ->
  Z.of_nat (List.length (emojiMap acc)) = found acc ->
  Z.of_nat (List.length (emojiMap (fold_left (visit allFiles) table acc))) =
  found (fold_left (visit allFiles) table acc).
Proof.
  induction table as [|[emoji files] table IH]; intros acc Hnodup Hfresh Hsize;
    cbn [fold_left].
  - exact Hsize.
  - cbn [map fst] in Hnodup. inversion Hnodup as [|e l Hnotin Hrest]; subst.
    apply IH; [exact Hrest| |].
    + intros k Hk. unfold visit. cbn [fst snd].
      destruct (truthy (firstPresent allFiles files)); cbn [emojiMap].
      * rewrite getProperty_setProperty.
        destruct (String.eqb_spec emoji k) as [->|Hne]; [contradiction|].
        apply Hfresh. right. exact Hk.
      * apply Hfresh. right. exact Hk.
    + unfold visit. cbn [fst snd].
      destruct (truthy (firstPresent allFiles files)); cbn [emojiMap found].
      * rewrite setProperty_new_length; [lia|].
        apply Hfresh. left. reflexivity.
      * exact Hsize.
Qed.

(** A file of the directory that ends in [.svg] passes the test
    [if (foundFile)]. *)
Lemma truthy_svg dir possibleFiles :
  truthy (firstPresent (svgFiles dir) possibleFiles) =
  firstPresent (svgFiles dir) possibleFiles.
Proof.
  unfold truthy.
  destruct (firstPresent (svgFiles dir) possibleFiles) as [f|] eqn:Hf;
    [|reflexivity].
  apply firstPresent_Some in Hf. destruct Hf as (_ & _ & _ & Hin & _).
  apply svgFiles_In in Hin. destruct Hin as [_ Hsvg].
  destruct (String.eqb_spec f "") as [->|Hne]; [discriminate Hsvg|reflexivity].
Qed.

(** X16: for every listing of the emoji directory, each of the 97 emojis of
    the table is counted once, as found or as not found, and the map the
    script writes has one property per emoji found. *)
Theorem script_counts_every_emoji_once dir :
  found (script dir) + notFound (script dir) = 97 /\
  Z.of_nat (List.length (emojiMap (script dir))) = found (script dir) /\
  0 <= found (script dir) /\
  0 <= notFound (script dir).
Proof.
  unfold script, generate. split; [|split].
  - rewrite generate_counts. reflexivity.
  - apply generate_size.
    + apply objectLiteral_NoDup.
    + intros k _. reflexivity.
    + reflexivity.
  - pose proof (generate_counters_grow (svgFiles dir) commonEmojis
                  (mkTally [] 0 0)) as [H1 H2].
    cbn [found notFound] in *. split; assumption.
Qed.

(** X17: for every listing of the emoji directory and every key, the map has
    the key exactly when the key is an emoji of the table one of whose
    candidate names is an [.svg] file of the directory, and then its value
    is the first such candidate in the order of the table. *)
Theorem script_maps_first_present_candidate dir emoji :
  getProperty (emojiMap (script dir)) emoji =
    match getProperty commonEmojis emoji with
    | Some possibleFiles => firstPresent (svgFiles dir) possibleFiles
    | None => None
    end /\
  (forall file,
     getProperty (emojiMap (script dir)) emoji = Some file <->
     exists before after,
       getProperty commonEmojis emoji = Some (before ++ file :: after) /\
       In file dir /\ endsWith file ".svg" = true /\
       forall earlier,
         In earlier before ->
         ~ (In earlier dir /\ endsWith earlier ".svg" = true)) /\
  (getProperty (emojiMap (script dir)) emoji = None <->
   getProperty commonEmojis emoji = None \/
   exists possibleFiles,
     getProperty commonEmojis emoji = Some possibleFiles /\
     forall candidate,
       In candidate possibleFiles ->
       ~ (In candidate dir /\ endsWith candidate ".svg" = true)).
Proof.
  assert (Hlookup :
    getProperty (emojiMap (script dir)) emoji =
    match getProperty commonEmojis emoji with
    | Some possibleFiles => firstPresent (svgFiles dir) possibleFiles
    | None => None
    end).
  { unfold script, generate.
    rewrite generate_lookup;
      [|apply objectLiteral_NoDup|intros k _; reflexivity].
    destruct (getProperty commonEmojis emoji); [apply truthy_svg|reflexivity]. }
  split; [exact Hlookup|]. rewrite Hlookup. split.
  - intros file. destruct (getProperty commonEmojis emoji) as [files|].
    + rewrite firstPresent_Some. split.
      * intros (before & after & -> & Hin & Hearlier).
        apply svgFiles_In in Hin. destruct Hin as [Hin Hsvg].
        exists before, after. repeat split; try assumption.
        intros e He Hpresent. apply (Hearlier e He).
        apply svgFiles_In. exact Hpresent.
      * intros (before & after & Heq & Hin & Hsvg & Hearlier).
        injection Heq as ->. exists before, after.
        split; [reflexivity|]. split; [apply svgFiles_In; tauto|].
        intros e He Hpresent. apply (Hearlier e He).
        apply svgFiles_In. exact Hpresent.
    + split; [discriminate|]. intros (b & a & H & _). discriminate H.
  - destruct (getProperty commonEmojis emoji) as [files|].
    + rewrite firstPresent_None. split.
      * intros H. right. exists files. split; [reflexivity|].
        intros c Hc Hpresent. apply (H c Hc). apply svgFiles_In. exact Hpresent.
      * intros [H|(files' & Heq & H)]; [discriminate H|].
        injection Heq as <-. intros c Hc Hpresent. apply (H c Hc).
        apply svgFiles_In. exact Hpresent.
    + split; [intros _; left; reflexivity|reflexivity].
Qed.

End GenerateEmojiMapProperties.

(** * The further properties on the sample inputs *)

Module OnMoreSamples.

Import Sample MoreSample.

Lemma tripped_reachable :
  reachable (ENSRegistration := Registration) tripped.
Proof.
  exact (reachable_step (FireSales outage) _ OnSamples.nearThreshold_reachable).
Qed.

(** The time service is down and says so: the run completes. *)
Lemma operations_throw_only_on_nullish_rejections_witness :
  noNullishRejection (FireSales outage) /\
  completion_of (perform (FireSales outage) nearThreshold) = Normal tt.
Proof.
  assert (H : noNullishRejection (FireSales outage)).
  { cbn. repeat split. }
  split; [exact H|].
  exact (proj1 (operations_throw_only_on_nullish_rejections
                  (FireSales outage) nearThreshold) H).
Defined.

(** The database returns what the scheduler of [busyDay] stored last. *)
Lemma restart_resumes_the_persisted_state_witness :
  getSystemState gateOpen "scheduler_enabled" =
    Normal (persistedAfter None (snd (history busyDay initial))) /\
  isRunning (state_of (initializeFromDatabase gateOpen initial)) =
    isRunning (fst (history busyDay initial)).
Proof.
  split; [reflexivity|].
  apply (restart_resumes_the_persisted_state busyDay gateOpen). reflexivity.
Defined.


Lemma initializeFromDatabase_is_fail_closed_witness :
  state_of (initializeFromDatabase outage initial) = initial /\
  isRunning (state_of (initializeFromDatabase gateOpen initial)) = true.
Proof.
  split.
  - apply (proj1 (initializeFromDatabase_is_fail_closed outage initial)).
    discriminate.
  - apply (proj2 (initializeFromDatabase_is_fail_closed gateOpen initial)).
    reflexivity.
Defined.

Lemma posting_pipeline_receives_the_fetched_records_witness :
  In (AutoTweetProcessNewSales ["a.eth"; "b.eth"; "c.eth"]
        (mkSettings true true))
     (trace_of (runSalesSync gateOpen started)) /\
  exists result,
    salesProcessing_processNewSales gateOpen = Normal result /\
    ["a.eth"; "b.eth"; "c.eth"] = processedSales result /\
    getSettings gateOpen = Normal (mkSettings true true).
Proof.
  assert (H : In (AutoTweetProcessNewSales ["a.eth"; "b.eth"; "c.eth"]
                    (mkSettings true true))
                 (trace_of (runSalesSync gateOpen started))).
  { vm_compute. tauto. }
  split; [exact H|].
  exact (posting_pipeline_receives_the_fetched_records gateOpen started _ _ H).
Defined.

Lemma registration_posting_requires_three_flags_witness :
  registrationPipelineInvoked
    (trace_of (runRegistrationSync registrationsWaiting started)) = true /\
  registrationPipelineInvoked
    (trace_of (runRegistrationSync gateClosed started)) = false.
Proof.
  split.
  - apply (proj1 (registration_posting_requires_three_flags
                    registrationsWaiting started)).
    split; [reflexivity|].
    exists ["x.eth"; "y.eth"], (mkSettings true true).
    repeat split; try reflexivity. discriminate.
  - destruct (registrationPipelineInvoked
                (trace_of (runRegistrationSync gateClosed started))) eqn:H;
      [|reflexivity].
    apply (proj1 (registration_posting_requires_three_flags
                    gateClosed started)) in H.
    destruct H as (_ & r & st & Hr & Hne & _).
    injection Hr as <-. exfalso. apply Hne. reflexivity.
Defined.

Lemma sales_run_without_new_sales_is_quiet_witness :
  settingsFetched (trace_of (runSalesSync noNewSales started)) = false /\
  consecutiveErrors (state_of (runSalesSync noNewSales started)) = 0.
Proof.
  destruct (sales_run_without_new_sales_is_quiet noNewSales started
              {| fetched := 4; newSales := 0; duplicates := 4; errors := 0;
                 processedSales := [] |}
              eq_refl eq_refl eq_refl (or_intror eq_refl))
    as (H1 & _ & _ & H2).
  split; [exact H1|]. rewrite H2. reflexivity.
Defined.

Lemma sales_run_stops_exactly_at_threshold_witness :
  isRunning nearThreshold = true /\
  isRunning (state_of (runSalesSync outage nearThreshold)) = false /\
  isRunning (state_of (runSalesSync outage started)) = true /\
  isRunning (state_of (runSalesSync EdgeSample.silentOutage nearThreshold))
    = true.
Proof.
  split; [reflexivity|]. split; [|split].
  - apply (proj1 (sales_run_stops_exactly_at_threshold outage nearThreshold
                    OnSamples.nearThreshold_reachable eq_refl)).
    exists (WithMessage "time server unreachable").
    split; [reflexivity|]. split; [reflexivity|]. vm_compute. discriminate.
  - destruct (proj1 (proj2 (sales_run_stops_exactly_at_threshold outage
                              started OnSamples.started_reachable eq_refl))
                (WithMessage "time server unreachable")
                eq_refl eq_refl eq_refl)
      as ((_ & _ & H & _) & _).
    rewrite H. reflexivity.
  - destruct (proj2 (proj2 (sales_run_stops_exactly_at_threshold
                              EdgeSample.silentOutage nearThreshold
                              OnSamples.nearThreshold_reachable eq_refl))
                UndefinedValue eq_refl eq_refl)
      as (_ & (_ & _ & H & _) & _).
    rewrite H. reflexivity.
Defined.

Lemma error_counter_moves_only_by_sales_runs_and_resets_witness :
  0 <= consecutiveErrors tripped /\
  consecutiveErrors (step (CallStart : Op Sale Registration) tripped) =
    consecutiveErrors tripped.
Proof.
  destruct (error_counter_moves_only_by_sales_runs_and_resets tripped
              tripped_reachable) as (H0 & _ & Hframe).
  split; [exact H0|]. exact (Hframe CallStart).
Defined.

(** Restarting a tripped scheduler without resetting the counter. *)
Lemma restart_keeps_the_error_count_witness :
  consecutiveErrors tripped = 5 /\
  isHealthy (state_of (start (ENSRegistration := Registration) tripped))
    = false /\
  isRunning
    (state_of (runSalesSync outage
                 (state_of (start (ENSRegistration := Registration) tripped))))
    = false.
Proof.
  split; [reflexivity|].
  destruct (restart_keeps_the_error_count tripped tripped_reachable)
    as (_ & Hhealth & _ & Hagain).
  split.
  - rewrite Hhealth. reflexivity.
  - apply (Hagain outage (WithMessage "time server unreachable"));
      [vm_compute; discriminate|reflexivity|reflexivity].
Defined.

Lemma manual_sync_on_a_stopped_scheduler_does_nothing_witness :
  isRunning tripped = false /\
  state_of (triggerManualSync gateOpen registrationsWaiting tripped) = tripped /\
  collaboratorCalled
    (trace_of (triggerManualSync gateOpen registrationsWaiting tripped))
    = false.
Proof.
  split; [reflexivity|].
  rewrite (manual_sync_on_a_stopped_scheduler_does_nothing
             gateOpen registrationsWaiting tripped eq_refl).
  split; reflexivity.
Defined.

Lemma status_next_runs_follow_isRunning_witness :
  nextRunTime (getStatus host tripped) = None /\
  nextRunTime (getStatus host started) = Some 1767225660000.
Proof.
  split.
  - apply (proj2 (status_next_runs_follow_isRunning host tripped
                    tripped_reachable)).
    reflexivity.
  - destruct (proj2 (proj2 (status_next_runs_follow_isRunning host started
                              OnSamples.started_reachable)) eq_refl)
      as (a & b & Ha & Hb & ->).
    injection Ha as <-. injection Hb as <-. reflexivity.
Defined.

Lemma uptime_counts_from_the_last_completed_sales_run_witness :
  uptime (getStatus host (state_of (runSalesSync gateOpen started))) = 30000 /\
  uptime (getStatus host (state_of (runSalesSync outage started))) = 0.
Proof.
  destruct (uptime_counts_from_the_last_completed_sales_run host gateOpen
              started) as (Hok & _).
  destruct (uptime_counts_from_the_last_completed_sales_run host outage
              started) as (_ & Hfail & _).
  split.
  - rewrite (Hok eq_refl eq_refl). reflexivity.
  - rewrite (Hfail (or_intror eq_refl)). reflexivity.
Defined.

End OnMoreSamples.
